(** * FullLSL ScriptGenerator: a shallow embedding and its specification

    The program under study is [ScriptGenerator.py]: a parser from an
    LLSD-style XML tree to a schema of constants, events and functions,
    and a generator of an LSL test script from that schema.

    Conventions of the embedding.
    - Python text is a [string]; each character stands for one code point
      in the range 0..255.
    - A Python [dict] is an association list in insertion order, updated
      the way Python updates it (a present key keeps its position).
    - A call that may raise returns a [result]: [Ret v] or [Raise e].
    - Python integers are [Z]; floats are IEEE binary64 values ([spec_float]
      with precision 53 and maximal exponent 1024).
    - Two limits of the interpreter are left out: the bound on the number
      of digits in the conversion between integers and text
      (sys.set_int_max_str_digits, taken as switched off) and the bound on
      the recursion depth. *)

From Stdlib Require Import ZArith List Bool Lia Ascii String DecimalString.
From Stdlib Require Import Floats.SpecFloat.
Import ListNotations.

#[local] Set Warnings "-register-all".

Local Open Scope list_scope.
Local Open Scope string_scope.

(** ** Exceptions and results *)

Inductive exn : Type :=
| ValueError
| AttributeError
| TypeError
| IndexError
| ParseError.

Inductive result (A : Type) : Type :=
| Ret (a : A)
| Raise (e : exn).

Arguments Ret {A} a.
Arguments Raise {A} e.

Definition bind {A B : Type} (m : result A) (k : A -> result B) : result B :=
  match m with
  | Ret a => k a
  | Raise e => Raise e
  end.

Notation "x <- m ;; k" := (bind m (fun x => k))
  (at level 61, m at next level, right associativity).
Notation "' p <- m ;; k" := (bind m (fun x => let p := x in k))
  (at level 61, p pattern, m at next level, right associativity).

Definition returns {A : Type} (m : result A) : bool :=
  match m with Ret _ => true | Raise _ => false end.

(** [for x in xs: body], threading the loop's mutable state [st]; an
    exception raised by the body leaves the loop. *)
Fixpoint for_each {A S : Type} (xs : list A) (st : S)
         (body : A -> S -> result S) : result S :=
  match xs with
  | [] => Ret st
  | x :: xs' => st' <- body x st ;; for_each xs' st' body
  end.

(** A list comprehension [[f(x) for x in xs]] over already tabulated calls:
    the first exception, left to right, propagates. *)
Fixpoint sequence {A : Type} (ms : list (result A)) : result (list A) :=
  match ms with
  | [] => Ret []
  | m :: ms' => a <- m ;; r <- sequence ms' ;; Ret (a :: r)
  end.

(** ** Text *)

Definition code (c : ascii) : N := N_of_ascii c.

Definition is_digit (c : ascii) : bool :=
  ((48 <=? code c) && (code c <=? 57))%N.

Definition digit_value (c : ascii) : Z := Z.of_N (code c) - 48.

(** C's [isspace] in the C locale ([Py_ISSPACE]): tab, LF, VT, FF, CR, space. *)
Definition is_c_space (c : ascii) : bool :=
  (((9 <=? code c) && (code c <=? 13)) || (code c =? 32))%N.

Fixpoint string_forallb (p : ascii -> bool) (s : string) : bool :=
  match s with
  | EmptyString => true
  | String c r => p c && string_forallb p r
  end.

Fixpoint lstrip_c (s : string) : string :=
  match s with
  | String c r => if is_c_space c then lstrip_c r else s
  | EmptyString => s
  end.

Fixpoint drop (n : nat) (s : string) : string :=
  match n, s with
  | O, _ => s
  | S k, String _ r => drop k r
  | S _, EmptyString => EmptyString
  end.

(** [sep.join(parts)] *)
Definition join (sep : string) (parts : list string) : string :=
  String.concat sep parts.

Definition newline : string := String (ascii_of_N 10) EmptyString.

(** [s.startswith(p)] *)
Definition startswith (s p : string) : bool := String.prefix p s.

(** [s.replace(old, new)] for a non-empty [old]: the occurrences of [old]
    are replaced from left to right, without overlap.  [skip] counts the
    characters of a matched occurrence that remain to be passed over.  For
    an empty [old] Python puts [new] before every character and at the end. *)
Fixpoint replace_from (old new : string) (skip : nat) (s : string) : string :=
  match s with
  | EmptyString => EmptyString
  | String c r =>
      match skip with
      | S k => replace_from old new k r
      | O =>
          if String.prefix old s
          then new ++ replace_from old new (String.length old - 1) r
          else String c (replace_from old new 0 r)
      end
  end.

Fixpoint intersperse_before (new s : string) : string :=
  match s with
  | EmptyString => new
  | String c r => new ++ String c (intersperse_before new r)
  end.

Definition replace (s old new : string) : string :=
  match old with
  | EmptyString => intersperse_before new s
  | String _ _ => replace_from old new 0 s
  end.

(** [pat in s], as a proposition and as a test. *)
Definition occurs (pat s : string) : Prop :=
  exists a b, s = a ++ pat ++ b.

Fixpoint occursb (pat s : string) : bool :=
  String.prefix pat s ||
  match s with
  | EmptyString => false
  | String _ r => occursb pat r
  end.

(** ** Integers: [int(text)] and [str(n)] *)

(** The conversion first maps the non-ASCII white space of the text to a
    blank; in the range 0..255 these are NEL (133) and NBSP (160).  No
    other code point from 127 on is a decimal digit, so the text is
    rejected. *)
Fixpoint to_ascii_numeral (s : string) : option string :=
  match s with
  | EmptyString => Some EmptyString
  | String c r =>
      if (code c <? 127)%N then option_map (String c) (to_ascii_numeral r)
      else if ((code c =? 133) || (code c =? 160))%N
           then option_map (String " ") (to_ascii_numeral r)
           else None
  end.

Definition is_underscore (c : ascii) : bool := (code c =? 95)%N.

(** The digits of a decimal numeral: single underscores may separate digits;
    two in a row, or one before the first or after the last digit, are
    refused.  The result is the value, the number of digits and the rest. *)
Fixpoint scan_digits (s : string) (prev_underscore : bool) (acc : Z) (n : nat)
  : option (Z * nat * string) :=
  match s with
  | String c r =>
      if is_digit c then scan_digits r false (acc * 10 + digit_value c) (S n)
      else if is_underscore c
           then if prev_underscore then None else scan_digits r true acc n
           else if prev_underscore then None else Some (acc, n, s)
  | EmptyString => if prev_underscore then None else Some (acc, n, s)
  end.

Definition take_sign (s : string) : bool * string :=
  match s with
  | String "+" r => (false, r)
  | String "-" r => (true, r)
  | _ => (false, s)
  end.

Definition starts_with_underscore (s : string) : bool :=
  match s with
  | String c _ => is_underscore c
  | EmptyString => false
  end.

(** [int(text)]: [None] stands for ValueError. *)
Definition py_int (text : string) : option Z :=
  match to_ascii_numeral text with
  | None => None
  | Some s =>
      let '(neg, s) := take_sign (lstrip_c s) in
      if starts_with_underscore s then None
      else match scan_digits s false 0 0 with
           | None => None
           | Some (_, O, _) => None
           | Some (v, S _, rest) =>
               if string_forallb is_c_space rest
               then Some (if neg then (- v)%Z else v)
               else None
           end
  end.

(** [str(n)] for an integer. *)
Definition str_of_int (n : Z) : string :=
  NilZero.string_of_int (Z.to_int n).

(** ** Floats: [float(text)] and [str(x)]

    A float is a binary64 value.  [float(text)] reads a decimal numeral and
    rounds it to the nearest float, ties to even; [str(x)] writes the
    shortest numeral that reads back as [x]. *)

Definition prec64 : Z := 53.
Definition emax64 : Z := 1024.

Definition float64 (m e : Z) : spec_float :=
  binary_normalize prec64 emax64 m e false.

Definition is_blank_string (s : string) : bool :=
  match s with EmptyString => true | String _ _ => false end.

Fixpoint span_digits (s : string) : string * string :=
  match s with
  | String c r =>
      if is_digit c
      then let '(d, rest) := span_digits r in (String c d, rest)
      else (EmptyString, s)
  | EmptyString => (EmptyString, EmptyString)
  end.

Fixpoint digits_value (s : string) (acc : Z) : Z :=
  match s with
  | String c r => digits_value r (acc * 10 + digit_value c)
  | EmptyString => acc
  end.

Fixpoint rstrip_rev (revs : list ascii) : list ascii :=
  match revs with
  | c :: r => if is_c_space c then rstrip_rev r else revs
  | [] => []
  end.

(** White space is removed at both ends. *)
Definition strip_c (s : string) : string :=
  string_of_list_ascii
    (rev (rstrip_rev (rev (list_ascii_of_string (lstrip_c s))))).

(** An underscore must stand between two digits; such underscores are
    dropped.  [None] when one is misplaced. *)
Fixpoint drop_underscores (s : string) (prev_digit : bool) : option string :=
  match s with
  | EmptyString => Some EmptyString
  | String c r =>
      if is_underscore c
      then match r with
           | String d _ =>
               if prev_digit && is_digit d then drop_underscores r false
               else None
           | EmptyString => None
           end
      else option_map (String c) (drop_underscores r (is_digit c))
  end.

Definition lower (c : ascii) : ascii :=
  if ((65 <=? code c) && (code c <=? 90))%N
  then ascii_of_N (code c + 32)
  else c.

Fixpoint lower_string (s : string) : string :=
  match s with
  | EmptyString => EmptyString
  | String c r => String (lower c) (lower_string r)
  end.

Definition is_exp_mark (c : ascii) : bool :=
  ((code c =? 101) || (code c =? 69))%N.

(** The exponent part [e[+-]digits] when it is complete, else nothing is
    taken. *)
Definition take_exponent (s : string) : Z * string :=
  match s with
  | String c r =>
      if is_exp_mark c
      then let '(neg, r1) := take_sign r in
           let '(ds, r2) := span_digits r1 in
           if is_blank_string ds then (0%Z, s)
           else ((if neg then - digits_value ds 0 else digits_value ds 0)%Z, r2)
      else (0%Z, s)
  | EmptyString => (0%Z, s)
  end.

Definition decimal_digits (m : Z) : Z :=
  Z.of_nat (String.length (str_of_int (Z.abs m))).

(** The float nearest to [m * 10^e] for [m >= 0], with the sign [neg].
    Beyond the range of the format the result is known without the
    division: an infinity above, a zero below. *)
Definition round_decimal (neg : bool) (m e : Z) : spec_float :=
  if (m =? 0)%Z then S754_zero neg
  else if (310 <? decimal_digits m + e)%Z then S754_infinity neg
  else if (decimal_digits m + e <? -330)%Z then S754_zero neg
  else
    let sm := if neg then (- m)%Z else m in
    if (0 <=? e)%Z then float64 (sm * 10 ^ e) 0
    else
      let d := (10 ^ (- e))%Z in
      let s := Z.max 0 (Z.log2 d - Z.log2 m + 66) in
      let q := (m * 2 ^ s / d)%Z in
      let sticky := if (m * 2 ^ s mod d =? 0)%Z then 0%Z else 1%Z in
      let q' := (2 * q + sticky)%Z in
      float64 (if neg then - q' else q') (- (s + 1)).

Definition parse_decimal_float (neg : bool) (s : string) : option spec_float :=
  let '(ip, r1) := span_digits s in
  let '(fp, r2) := match r1 with
                   | String "." r => span_digits r
                   | _ => (EmptyString, r1)
                   end in
  if is_blank_string (ip ++ fp) then None
  else
    let '(ex, r3) := take_exponent r2 in
    if is_blank_string r3
    then Some (round_decimal neg (digits_value (ip ++ fp) 0)
                 (ex - Z.of_nat (String.length fp)))
    else None.

Definition parse_inf_nan (neg : bool) (s : string) : option spec_float :=
  let w := lower_string s in
  if (w =? "inf") || (w =? "infinity") then Some (S754_infinity neg)
  else if (w =? "nan") then Some S754_nan
  else None.

(** [float(text)]: [None] stands for ValueError. *)
Definition py_float (text : string) : option spec_float :=
  match to_ascii_numeral text with
  | None => None
  | Some s =>
      match drop_underscores (strip_c s) false with
      | None => None
      | Some s1 =>
          let '(neg, s2) := take_sign s1 in
          match parse_decimal_float neg s2 with
          | Some x => Some x
          | None => parse_inf_nan neg s2
          end
      end
  end.

(** The decimal exponent [p] of a positive rational [n / d]:
    [10^(p-1) <= n/d < 10^p], searched upwards from [p]. *)
Fixpoint decimal_point (fuel : nat) (n d p : Z) : Z :=
  match fuel with
  | O => p
  | S k =>
      let below := if (0 <=? p)%Z then (n <? d * 10 ^ p)%Z
                   else (n * 10 ^ (- p) <? d)%Z in
      if below then p else decimal_point k n d (p + 1)
  end.

(** A decimal exponent not above that of [n / d], from the lengths in bits
    (30103 / 100000 approximates the logarithm of 2 in base 10). *)
Definition decimal_point_below (n d : Z) : Z :=
  ((Z.log2 n - Z.log2 d - 1) * 30103 / 100000 - 1)%Z.

Fixpoint strip_zeros_rev (revs : list ascii) : list ascii :=
  match revs with
  | c :: r => if (code c =? 48)%N then strip_zeros_rev r else revs
  | [] => []
  end.

Definition strip_trailing_zeros (s : string) : string :=
  string_of_list_ascii (rev (strip_zeros_rev (rev (list_ascii_of_string s)))).

Definition spec_float_eqb (x y : spec_float) : bool :=
  match x, y with
  | S754_finite s m e, S754_finite s' m' e' =>
      Bool.eqb s s' && Pos.eqb m m' && Z.eqb e e'
  | S754_zero s, S754_zero s' => Bool.eqb s s'
  | S754_infinity s, S754_infinity s' => Bool.eqb s s'
  | S754_nan, S754_nan => true
  | _, _ => false
  end.

(** The shortest digits of the positive float [x = n / d] whose decimal
    point is [p]: for 1, 2, ... digits, the neighbours below and above
    [x]; the first length at which one of them reads back as [x] wins, the
    nearer of the two when both do (the even one at a tie).  The result is
    a numeral [c] and an exponent [e] with [x] read back from [c * 10^e]. *)
Fixpoint shortest_digits (fuel : nat) (x : spec_float) (n d p k : Z) : Z * Z :=
  let e := (p - k)%Z in
  let '(num, den) := if (0 <=? e)%Z then (n, d * 10 ^ e)%Z
                     else (n * 10 ^ (- e), d)%Z in
  let lo := (num / den)%Z in
  let r := (num mod den)%Z in
  let hi := (lo + 1)%Z in
  let ok_lo := spec_float_eqb (round_decimal false lo e) x in
  let ok_hi := spec_float_eqb (round_decimal false hi e) x in
  let up := match (2 * r ?= den)%Z with
            | Lt => false
            | Gt => true
            | Eq => Z.odd lo
            end in
  match fuel with
  | O => (if up then hi else lo, e)
  | S f =>
      if (r =? 0)%Z then (lo, e)
      else if ok_lo && ok_hi then (if up then hi else lo, e)
      else if ok_lo then (lo, e)
      else if ok_hi then (hi, e)
      else shortest_digits f x n d p (k + 1)
  end.

Fixpoint zeros (n : nat) : string :=
  match n with
  | O => EmptyString
  | S k => String "0" (zeros k)
  end.

Definition take (n : nat) (s : string) : string := String.substring 0 n s.

(** The digits [ds] with the decimal point after the first [decpt] of
    them, in the layout of [repr]: scientific from 1e16 and below 1e-4. *)
Definition layout_float (ds : string) (decpt : Z) : string :=
  let len := Z.of_nat (String.length ds) in
  if ((decpt <=? -4) || (16 <? decpt))%Z then
    let ex := (decpt - 1)%Z in
    let mant := match ds with
                | String c EmptyString => ds
                | String c r => String c (String "." r)
                | EmptyString => ds
                end in
    let exs := str_of_int (Z.abs ex) in
    mant ++ "e" ++ (if (ex <? 0)%Z then "-" else "+")
         ++ (if (Z.abs ex <? 10)%Z then "0" else "") ++ exs
  else if (decpt <=? 0)%Z then
    "0." ++ zeros (Z.to_nat (- decpt)) ++ ds
  else if (len <=? decpt)%Z then
    ds ++ zeros (Z.to_nat (decpt - len)) ++ ".0"
  else
    take (Z.to_nat decpt) ds ++ "." ++ drop (Z.to_nat decpt) ds.

(** [str(x)] (and [repr(x)]) for a float. *)
Definition str_of_float (x : spec_float) : string :=
  match x with
  | S754_zero s => if s then "-0.0" else "0.0"
  | S754_infinity s => if s then "-inf" else "inf"
  | S754_nan => "nan"
  | S754_finite s m e =>
      let ax := float64 (Zpos m) e in
      let '(n, d) := if (0 <=? e)%Z then (Zpos m * 2 ^ e, 1)%Z
                     else (Zpos m, 2 ^ (- e))%Z in
      let p := decimal_point 700 n d (decimal_point_below n d) in
      let '(c, ce) := shortest_digits 17 ax n d p 1 in
      let ds := strip_trailing_zeros (str_of_int c) in
      let decpt := (Z.of_nat (String.length (str_of_int c)) + ce)%Z in
      (if s then "-" else "") ++ layout_float ds decpt
  end.

(** ** Values

    What the parser produces and the generator consumes: [None], text,
    integers, floats, lists and dicts.  The keys of a dict are the text of
    an XML element: a string, or [None] for an element without text. *)

Definition pykey : Type := option string.

Inductive pyval : Type :=
| VNone
| VStr (s : string)
| VInt (n : Z)
| VFloat (x : spec_float)
| VList (l : list pyval)
| VDict (d : list (pykey * pyval)).

Definition pydict (V : Type) : Type := list (pykey * V).

Definition key_eqb (a b : pykey) : bool :=
  match a, b with
  | Some x, Some y => String.eqb x y
  | None, None => true
  | _, _ => false
  end.

(** [d.get(k)], [k in d] *)
Fixpoint dict_get {V : Type} (d : pydict V) (k : pykey) : option V :=
  match d with
  | [] => None
  | (k', v) :: r => if key_eqb k k' then Some v else dict_get r k
  end.

Definition dict_mem {V : Type} (d : pydict V) (k : pykey) : bool :=
  match dict_get d k with Some _ => true | None => false end.

(** [d[k] = v]: a present key keeps its place, a new one goes last. *)
Fixpoint dict_set {V : Type} (d : pydict V) (k : pykey) (v : V) : pydict V :=
  match d with
  | [] => [(k, v)]
  | (k', v') :: r =>
      if key_eqb k k' then (k', v) :: r else (k', v') :: dict_set r k v
  end.

Definition keys {V : Type} (d : pydict V) : list pykey := map fst d.

(** *** [repr] and [str] *)

Definition hex_digit (n : N) : ascii :=
  if (n <? 10)%N then ascii_of_N (48 + n) else ascii_of_N (87 + n).

Definition hex_escape (c : ascii) : string :=
  String "\" (String "x" (String (hex_digit (code c / 16))
                            (String (hex_digit (code c mod 16)) EmptyString))).

(** Code points that [repr] writes as they are. *)
Definition is_printable (c : ascii) : bool :=
  (((32 <=? code c) && (code c <? 127))
   || ((161 <=? code c) && negb (code c =? 173)))%N.

Definition squote : ascii := "'"%char.
Definition dquote : ascii := ascii_of_N 34.

Fixpoint has_char (q : ascii) (s : string) : bool :=
  match s with
  | EmptyString => false
  | String c r => Ascii.eqb c q || has_char q r
  end.

Definition repr_char (quote c : ascii) : string :=
  if Ascii.eqb c quote || (code c =? 92)%N then String "\" (String c EmptyString)
  else if (code c =? 9)%N then "\t"
  else if (code c =? 10)%N then "\n"
  else if (code c =? 13)%N then "\r"
  else if is_printable c then String c EmptyString
  else hex_escape c.

Fixpoint repr_chars (quote : ascii) (s : string) : string :=
  match s with
  | EmptyString => EmptyString
  | String c r => repr_char quote c ++ repr_chars quote r
  end.

Definition repr_str (s : string) : string :=
  let quote := if has_char squote s && negb (has_char dquote s)
               then dquote else squote in
  String quote (repr_chars quote s ++ String quote EmptyString).

Definition repr_key (k : pykey) : string :=
  match k with
  | Some s => repr_str s
  | None => "None"
  end.

Fixpoint py_repr (v : pyval) : string :=
  match v with
  | VNone => "None"
  | VStr s => repr_str s
  | VInt n => str_of_int n
  | VFloat x => str_of_float x
  | VList l => "[" ++ join ", " (map py_repr l) ++ "]"
  | VDict d =>
      "{" ++ join ", " (map (fun kv => repr_key (fst kv) ++ ": " ++ py_repr (snd kv)) d)
          ++ "}"
  end.

(** What an f-string puts for [{v}]. *)
Definition py_str (v : pyval) : string :=
  match v with
  | VStr s => s
  | _ => py_repr v
  end.

Definition key_str (k : pykey) : string :=
  match k with
  | Some s => s
  | None => "None"
  end.

Definition key_value (k : pykey) : pyval :=
  match k with
  | Some s => VStr s
  | None => VNone
  end.

(** Truth value of a value used as a condition. *)
Definition py_truthy (v : pyval) : bool :=
  match v with
  | VNone => false
  | VStr s => negb (is_blank_string s)
  | VInt n => negb (n =? 0)%Z
  | VFloat (S754_zero _) => false
  | VFloat _ => true
  | VList l => match l with [] => false | _ => true end
  | VDict d => match d with [] => false | _ => true end
  end.

(** [v == 'text'] *)
Definition is_str (v : pyval) (text : string) : bool :=
  match v with
  | VStr s => String.eqb s text
  | _ => false
  end.

(** ** XML elements ([xml.etree.ElementTree.Element]) *)

Inductive Element : Type :=
| mkElement (tag : string) (text : option string) (children : list Element).

Definition tag (e : Element) : string :=
  match e with mkElement t _ _ => t end.
Definition text (e : Element) : option string :=
  match e with mkElement _ t _ => t end.
Definition children (e : Element) : list Element :=
  match e with mkElement _ _ c => c end.

(** [len(e)], [e[i]], [e.find(t)] *)
Definition len (e : Element) : nat := List.length (children e).

Definition getitem (e : Element) (i : nat) : result Element :=
  match nth_error (children e) i with
  | Some c => Ret c
  | None => Raise IndexError
  end.

Definition find (e : Element) (t : string) : option Element :=
  List.find (fun c => String.eqb (tag c) t) (children e).

(** [range(start, stop, step)] for a positive step. *)
Definition range (start stop step : nat) : list nat :=
  map (fun j => start + j * step) (seq 0 ((stop - start + step - 1) / step)).

(** A loop over indices whose body may [break]. *)
Inductive control (S : Type) : Type :=
| Next (st : S)
| Break (st : S).

Arguments Next {S} st.
Arguments Break {S} st.

Fixpoint for_index {S : Type} (xs : list nat) (st : S)
         (body : nat -> S -> result (control S)) : result S :=
  match xs with
  | [] => Ret st
  | i :: xs' =>
      c <- body i st ;;
      match c with
      | Next st' => for_index xs' st' body
      | Break st' => Ret st'
      end
  end.

Definition text_truthy (t : option string) : bool :=
  match t with
  | Some s => negb (is_blank_string s)
  | None => false
  end.

Definition text_or_empty (t : option string) : string :=
  match t with
  | Some s => s
  | None => EmptyString
  end.

(** ** The parser *)

(** The call [parse_value(item_map[j])], read from the table of the calls
    on the children of [item_map]. *)
Definition call_at {A : Type} (table : list (result A)) (j : nat) : result A :=
  match nth_error table j with
  | Some r => r
  | None => Raise IndexError
  end.

(** The body of [parse_item].  The recursive calls of [parse_value] on the
    children are handed over as [table], so that [parse_value] below is
    structurally recursive; the loop asks for a call only where the source
    makes it. *)
Definition parse_item_loop (item_map : Element) (table : list (result pyval))
  : result (pydict pyval) :=
  let item_data : pydict pyval := [] in
  for_index (range 0 (len item_map) 2) item_data (fun i item_data =>
    if (len item_map <=? i + 1)%nat then Ret (Break item_data)
    else
      key_elem <- getitem item_map i ;;
      value_elem <- getitem item_map (i + 1) ;;
      if String.eqb (tag key_elem) "key" then
        let key_name := text key_elem in
        v <- call_at table (i + 1) ;;
        Ret (Next (dict_set item_data key_name v))
      else Ret (Next item_data)).

Fixpoint parse_value (value_elem : Element) : result pyval :=
  match value_elem with
  | mkElement tg txt chs =>
      if String.eqb tg "string" then
        Ret (VStr (text_or_empty txt))
      else if String.eqb tg "integer" then
        if text_truthy txt then
          match py_int (text_or_empty txt) with
          | Some n => Ret (VInt n)
          | None => Raise ValueError
          end
        else Ret (VInt 0)
      else if String.eqb tg "real" then
        if text_truthy txt then
          match py_float (text_or_empty txt) with
          | Some x => Ret (VFloat x)
          | None => Raise ValueError
          end
        else Ret (VFloat (S754_zero false))
      else if String.eqb tg "array" then
        l <- sequence (map parse_value chs) ;; Ret (VList l)
      else if String.eqb tg "map" then
        d <- parse_item_loop value_elem (map parse_value chs) ;; Ret (VDict d)
      else
        Ret (match txt with Some s => VStr s | None => VNone end)
  end.

Definition parse_item (item_map : Element) : result (pydict pyval) :=
  parse_item_loop item_map (map parse_value (children item_map)).

Definition parse_section (section_map : Element)
  : result (pydict (pydict pyval)) :=
  let section_data : pydict (pydict pyval) := [] in
  for_index (range 0 (len section_map) 2) section_data (fun i section_data =>
    if (len section_map <=? i + 1)%nat then Ret (Break section_data)
    else
      key_elem <- getitem section_map i ;;
      value_elem <- getitem section_map (i + 1) ;;
      if String.eqb (tag key_elem) "key" && String.eqb (tag value_elem) "map" then
        let item_name := text key_elem in
        item_data <- parse_item value_elem ;;
        Ret (Next (dict_set section_data item_name item_data))
      else Ret (Next section_data)).

(** The schema: the dict [data] with its three fixed keys. *)
Record Schema : Type := mkSchema {
  constants : pydict (pydict pyval);
  events : pydict (pydict pyval);
  functions : pydict (pydict pyval)
}.

Definition empty_schema : Schema := mkSchema [] [] [].

(** [section_name in data] and [data[section_name] = v] *)
Definition schema_has (section_name : pykey) : bool :=
  key_eqb section_name (Some "constants")
  || key_eqb section_name (Some "events")
  || key_eqb section_name (Some "functions").

Definition schema_set (data : Schema) (section_name : pykey)
           (v : pydict (pydict pyval)) : Schema :=
  if key_eqb section_name (Some "constants")
  then mkSchema v (events data) (functions data)
  else if key_eqb section_name (Some "events")
  then mkSchema (constants data) v (functions data)
  else if key_eqb section_name (Some "functions")
  then mkSchema (constants data) (events data) v
  else data.

(** [parse_llsd_xml], from the outcome of [ET.parse]: the root element, or
    the error of a document that is not well-formed XML. *)
Definition parse_llsd_xml (tree : result Element) : result Schema :=
  root <- tree ;;
  let data := empty_schema in
  match find root "map" with
  | None => Ret data
  | Some main_map =>
      for_index (range 0 (len main_map) 2) data (fun i data =>
        if (len main_map <=? i + 1)%nat then Ret (Break data)
        else
          key_elem <- getitem main_map i ;;
          value_elem <- getitem main_map (i + 1) ;;
          if String.eqb (tag key_elem) "key" && String.eqb (tag value_elem) "map" then
            let section_name := text key_elem in
            if schema_has section_name then
              v <- parse_section value_elem ;;
              Ret (Next (schema_set data section_name v))
            else Ret (Next data)
          else Ret (Next data))
  end.

(** ** Operations of the generator on values *)

(** [for x in v]: the elements of a list, the characters of a text, the
    keys of a dict; nothing else can be iterated. *)
Fixpoint chars (s : string) : list pyval :=
  match s with
  | EmptyString => []
  | String c r => VStr (String c EmptyString) :: chars r
  end.

Definition py_iter (v : pyval) : result (list pyval) :=
  match v with
  | VList l => Ret l
  | VStr s => Ret (chars s)
  | VDict d => Ret (map key_value (keys d))
  | _ => Raise TypeError
  end.

(** [v.items()] and [v.get(k, default)]: only a dict has them. *)
Definition py_items (v : pyval) : result (pydict pyval) :=
  match v with
  | VDict d => Ret d
  | _ => Raise AttributeError
  end.

Definition get_default {V : Type} (d : pydict V) (k : pykey) (default : V) : V :=
  match dict_get d k with
  | Some v => v
  | None => default
  end.

Definition py_get (v : pyval) (k : pykey) (default : pyval) : result pyval :=
  match v with
  | VDict d => Ret (get_default d k default)
  | _ => Raise AttributeError
  end.

(** [v.startswith(p)] and [v.replace(old, new)]: only text has them. *)
Definition py_startswith (v : pyval) (p : string) : result bool :=
  match v with
  | VStr s => Ret (startswith s p)
  | _ => Raise AttributeError
  end.

Definition py_replace (v : pyval) (old new : string) : result pyval :=
  match v with
  | VStr s => Ret (VStr (replace s old new))
  | _ => Raise AttributeError
  end.

(** [int(v)] where [v] is text; ValueError when the text is no numeral. *)
Definition py_int_of_text (v : pyval) : result Z :=
  match v with
  | VStr s => match py_int s with
              | Some n => Ret n
              | None => Raise ValueError
              end
  | _ => Raise TypeError
  end.

(** [try: body except ValueError: handler] *)
Definition try_except_ValueError {A : Type} (body : result A) (handler : result A)
  : result A :=
  match body with
  | Raise ValueError => handler
  | r => r
  end.

Definition append (lines : list string) (line : string) : list string :=
  (lines ++ [line])%list.

(** ** The generator *)

Definition get_event_parameters (event_data : pydict pyval)
  : result (list (pykey * pyval)) :=
  let parameters : list (pykey * pyval) := [] in
  match dict_get event_data (Some "arguments") with
  | Some arguments =>
      arg_maps <- py_iter arguments ;;
      for_each arg_maps parameters (fun arg_map parameters =>
        items <- py_items arg_map ;;
        for_each items parameters (fun '(param_name, param_data) parameters =>
          param_type <- py_get param_data (Some "type") (VStr "integer") ;;
          Ret (parameters ++ [(param_name, param_type)])%list))
  | None => Ret parameters
  end.

(** The text kept for a constant's value: a [0x] literal as it is,
    otherwise the decimal numeral of the integer it denotes, otherwise the
    text between double quotes. *)
Definition normalize_const_value (const_value : pyval) : result pyval :=
  is_hex <- py_startswith const_value "0x" ;;
  if is_hex then py_replace const_value "0x" "0x"
  else
    try_except_ValueError
      (n <- py_int_of_text const_value ;; Ret (VStr (str_of_int n)))
      (Ret (VStr (String dquote (py_str const_value ++ String dquote EmptyString)))).

(** The variable that receives a constant of the given type. *)
Definition const_var (const_type : pyval) : string :=
  if is_str const_type "integer" then "i"
  else if is_str const_type "float" then "f"
  else if is_str const_type "string" then "s"
  else if is_str const_type "key" then "k"
  else if is_str const_type "vector" then "v"
  else if is_str const_type "rotation" then "r"
  else "i".

(** The variable passed for an argument of the given type. *)
Definition arg_var (arg_type : pyval) : string :=
  if is_str arg_type "integer" then "i"
  else if is_str arg_type "float" then "f"
  else if is_str arg_type "string" then "s"
  else if is_str arg_type "key" then "k"
  else if is_str arg_type "vector" then "v"
  else if is_str arg_type "rotation" then "r"
  else if is_str arg_type "list" then "l"
  else "i".

(** The statement for a call, by the return type of the function. *)
Definition call_statement (return_type : pyval) (func_call : string) : string :=
  if is_str return_type "void" then "        " ++ func_call ++ ";"
  else if is_str return_type "integer" then "        i=" ++ func_call ++ ";"
  else if is_str return_type "float" then "        f=" ++ func_call ++ ";"
  else if is_str return_type "string" then "        s=" ++ func_call ++ ";"
  else if is_str return_type "key" then "        k=" ++ func_call ++ ";"
  else if is_str return_type "vector" then "        v=" ++ func_call ++ ";"
  else if is_str return_type "rotation" then "        r=" ++ func_call ++ ";"
  else if is_str return_type "list" then "        l=" ++ func_call ++ ";"
  else "        i=" ++ func_call ++ ";".

Definition touch_start : pykey := Some "touch_start".

Definition generate_lsl_script (data : Schema) : result string :=
  let lsl_lines : list string := [] in
  let lsl_lines := append lsl_lines "float f;" in
  let lsl_lines := append lsl_lines "integer i;" in
  let lsl_lines := append lsl_lines "key k;" in
  let lsl_lines := append lsl_lines "list l;" in
  let lsl_lines := append lsl_lines "quaternion q;" in
  let lsl_lines := append lsl_lines "rotation r;" in
  let lsl_lines := append lsl_lines "string s;" in
  let lsl_lines := append lsl_lines "vector v;" in
  let lsl_lines := append lsl_lines "" in
  let lsl_lines := append lsl_lines "default" in
  let lsl_lines := append lsl_lines "{" in
  lsl_lines <-
    for_each (events data) lsl_lines (fun '(event_name, event_data) lsl_lines =>
      parameters <- get_event_parameters event_data ;;
      let param_str :=
        match parameters with
        | _ :: _ =>
            join ", " (map (fun '(param_name, param_type) =>
                              py_str param_type ++ " " ++ key_str param_name)
                           parameters)
        | [] => ""
        end in
      let lsl_lines :=
        append lsl_lines ("    " ++ key_str event_name ++ "(" ++ param_str ++ ")") in
      let lsl_lines := append lsl_lines "    {" in
      lsl_lines <-
        (if key_eqb event_name touch_start then
           lsl_lines <-
             for_each (constants data) lsl_lines (fun '(const_name, const_data) lsl_lines =>
               let const_type := get_default const_data (Some "type") (VStr "integer") in
               let const_value := get_default const_data (Some "value") (VStr "0") in
               const_value <- normalize_const_value const_value ;;
               Ret (append lsl_lines
                      ("        " ++ const_var const_type ++ "="
                                  ++ key_str const_name ++ ";"))) ;;
           let lsl_lines := append lsl_lines "        r=ZERO_ROTATION;" in
           let lsl_lines := append lsl_lines "        v=ZERO_VECTOR;" in
           let lsl_lines := append lsl_lines "" in
           for_each (functions data) lsl_lines (fun '(func_name, func_data) lsl_lines =>
             let return_type := get_default func_data (Some "return") (VStr "integer") in
             func_call <-
               (if dict_mem func_data (Some "arguments")
                   && py_truthy (get_default func_data (Some "arguments") VNone)
                then
                  let args : list string := [] in
                  arg_list <- py_iter (get_default func_data (Some "arguments") VNone) ;;
                  args <-
                    for_each arg_list args (fun arg args =>
                      items <- py_items arg ;;
                      for_each items args (fun '(arg_name, arg_data) args =>
                        arg_type <- py_get arg_data (Some "type") (VStr "integer") ;;
                        Ret (append args (arg_var arg_type)))) ;;
                  Ret (key_str func_name ++ "(" ++ join ", " args ++ ")")
                else Ret (key_str func_name ++ "()")) ;;
             Ret (append lsl_lines (call_statement return_type func_call)))
         else
           Ret (append lsl_lines "        ")) ;;
      let lsl_lines := append lsl_lines "    }" in
      let lsl_lines := append lsl_lines "" in
      Ret lsl_lines) ;;
  let lsl_lines := append lsl_lines "}" in
  Ret (join newline lsl_lines).

(** ** Specification of the parser

    The three loops of the parser walk the children of a mapping element
    two by two. *)

Fixpoint pairs {A : Type} (l : list A) : list (A * A) :=
  match l with
  | a :: b :: r => (a, b) :: pairs r
  | _ => []
  end.

(** One key/value pair of an item, of a section, of the top-level map. *)
Definition item_step (kv : Element * Element) (item_data : pydict pyval)
  : result (pydict pyval) :=
  let '(key_elem, value_elem) := kv in
  if String.eqb (tag key_elem) "key" then
    v <- parse_value value_elem ;; Ret (dict_set item_data (text key_elem) v)
  else Ret item_data.

Definition section_step (kv : Element * Element)
           (section_data : pydict (pydict pyval))
  : result (pydict (pydict pyval)) :=
  let '(key_elem, value_elem) := kv in
  if String.eqb (tag key_elem) "key" && String.eqb (tag value_elem) "map" then
    item_data <- parse_item value_elem ;;
    Ret (dict_set section_data (text key_elem) item_data)
  else Ret section_data.

Definition schema_step (kv : Element * Element) (data : Schema) : result Schema :=
  let '(key_elem, value_elem) := kv in
  if String.eqb (tag key_elem) "key" && String.eqb (tag value_elem) "map" then
    if schema_has (text key_elem) then
      v <- parse_section value_elem ;; Ret (schema_set data (text key_elem) v)
    else Ret data
  else Ret data.

Definition is_some {A : Type} (o : option A) : bool :=
  match o with Some _ => true | None => false end.









(** ** Specification of the generator

    What the script is, line by line, and on which schemas there is one:
    the declarations, one block per event in insertion order, the closing
    brace; in the block of [touch_start], one line per constant, the two
    built-in assignments and one line per function.  The generator above
    is compared with these definitions in [generate_lsl_script_spec]. *)

Definition is_dict (v : pyval) : bool :=
  match v with VDict _ => true | _ => false end.

Definition is_text (v : pyval) : bool :=
  match v with VStr _ => true | _ => false end.

Definition entries (arg_map : pyval) : pydict pyval :=
  match arg_map with VDict d => d | _ => [] end.

(** An element of [arguments] that the inner loop accepts: a dict whose
    values are dicts. *)
Definition arg_map_ok (arg_map : pyval) : bool :=
  is_dict arg_map && forallb (fun kv => is_dict (snd kv)) (entries arg_map).

(** An [arguments] attribute that the two loops over it accept: it can be
    iterated and every element is accepted.  (A text or a dict can be
    iterated, but its elements are accepted only when there is none.) *)
Definition arguments_ok (arguments : pyval) : bool :=
  match py_iter arguments with
  | Ret l => forallb arg_map_ok l
  | Raise _ => false
  end.

(** The entries of all the elements of [arguments], in order. *)
Definition arg_entries (arguments : pyval) : pydict pyval :=
  match py_iter arguments with
  | Ret l => flat_map entries l
  | Raise _ => []
  end.

(** The name of an argument with its type, [integer] when it has none. *)
Definition param_of (kv : pykey * pyval) : pykey * pyval :=
  (fst kv, get_default (entries (snd kv)) (Some "type") (VStr "integer")).

Definition event_ok (event_data : pydict pyval) : bool :=
  match dict_get event_data (Some "arguments") with
  | Some arguments => arguments_ok arguments
  | None => true
  end.

Definition const_ok (const_data : pydict pyval) : bool :=
  is_text (get_default const_data (Some "value") (VStr "0")).

Definition func_ok (func_data : pydict pyval) : bool :=
  match dict_get func_data (Some "arguments") with
  | Some arguments => if py_truthy arguments then arguments_ok arguments else true
  | None => true
  end.

Definition body_ok (data : Schema) (event_name : pykey) : bool :=
  if key_eqb event_name touch_start
  then forallb (fun c => const_ok (snd c)) (constants data)
       && forallb (fun f => func_ok (snd f)) (functions data)
  else true.

(** The schemas on which the generator returns. *)
Definition schema_ok (data : Schema) : bool :=
  forallb (fun ev => event_ok (snd ev) && body_ok data (fst ev)) (events data).




(** The two nested loops over [arguments], appending [g] of every entry. *)
Definition entry_loop {B : Type} (g : pykey * pyval -> B)
           (items : pydict pyval) (acc : list B) : result (list B) :=
  for_each items acc (fun '(name, arg_data) acc =>
    arg_type <- py_get arg_data (Some "type") (VStr "integer") ;;
    Ret (acc ++ [g (name, arg_type)])%list).

Definition arg_loop {B : Type} (g : pykey * pyval -> B)
           (arg_maps : list pyval) (acc : list B) : result (list B) :=
  for_each arg_maps acc (fun arg_map acc =>
    items <- py_items arg_map ;; entry_loop g items acc).

Definition event_parameters_of (event_data : pydict pyval) : list (pykey * pyval) :=
  match dict_get event_data (Some "arguments") with
  | Some arguments => map param_of (arg_entries arguments)
  | None => []
  end.

Definition param_text (p : pykey * pyval) : string :=
  py_str (snd p) ++ " " ++ key_str (fst p).

Definition event_header (event_name : pykey) (parameters : list (pykey * pyval))
  : string :=
  "    " ++ key_str event_name ++ "(" ++ join ", " (map param_text parameters) ++ ")".

Definition const_line (c : pykey * pydict pyval) : string :=
  "        " ++ const_var (get_default (snd c) (Some "type") (VStr "integer"))
             ++ "=" ++ key_str (fst c) ++ ";".

Definition func_args (func_data : pydict pyval) : list string :=
  match dict_get func_data (Some "arguments") with
  | Some arguments =>
      if py_truthy arguments
      then map (fun kv => arg_var (snd (param_of kv))) (arg_entries arguments)
      else []
  | None => []
  end.

Definition func_call (f : pykey * pydict pyval) : string :=
  key_str (fst f) ++ "(" ++ join ", " (func_args (snd f)) ++ ")".

(** The variable that receives the result of a call that is not [void]. *)
Definition ret_var (return_type : pyval) : string :=
  if is_str return_type "integer" then "i"
  else if is_str return_type "float" then "f"
  else if is_str return_type "string" then "s"
  else if is_str return_type "key" then "k"
  else if is_str return_type "vector" then "v"
  else if is_str return_type "rotation" then "r"
  else if is_str return_type "list" then "l"
  else "i".

Definition func_line (f : pykey * pydict pyval) : string :=
  let return_type := get_default (snd f) (Some "return") (VStr "integer") in
  if is_str return_type "void"
  then "        " ++ func_call f ++ ";"
  else "        " ++ ret_var return_type ++ "=" ++ func_call f ++ ";".

Definition builtin_lines : list string :=
  ["        r=ZERO_ROTATION;"; "        v=ZERO_VECTOR;"; ""].

Definition activation_body (data : Schema) : list string :=
  (map const_line (constants data) ++ builtin_lines
     ++ map func_line (functions data))%list.

Definition empty_body : list string := ["        "].

Definition event_body (data : Schema) (event_name : pykey) : list string :=
  if key_eqb event_name touch_start then activation_body data else empty_body.

Definition event_block (data : Schema) (ev : pykey * pydict pyval) : list string :=
  ([event_header (fst ev) (event_parameters_of (snd ev)); "    {"]
     ++ event_body data (fst ev) ++ ["    }"; ""])%list.

(** The keys of each section are distinct, as in any dict. *)
Definition keys_distinct (data : Schema) : Prop :=
  NoDup (keys (constants data)) /\ NoDup (keys (events data))
  /\ NoDup (keys (functions data)).

(** The block of an event that is not the activation event. *)
Definition plain_block (ev : pykey * pydict pyval) : list string :=
  [event_header (fst ev) (event_parameters_of (snd ev));
   "    {"; "        "; "    }"; ""].

(** The block of the activation event. *)
Definition activation_block (data : Schema) (event_data : pydict pyval)
  : list string :=
  ([event_header touch_start (event_parameters_of event_data); "    {"]
     ++ map const_line (constants data)
     ++ builtin_lines
     ++ map func_line (functions data)
     ++ ["    }"; ""])%list.

Definition preamble : list string :=
  ["float f;"; "integer i;"; "key k;"; "list l;"; "quaternion q;";
   "rotation r;"; "string s;"; "vector v;"; ""; "default"; "{"].

Definition script_lines (data : Schema) : list string :=
  (preamble ++ flat_map (event_block data) (events data) ++ ["}"])%list.

(** The schema with the value of every constant set to a text chosen by
    its name. *)
Definition with_values (f : pykey -> string) (data : Schema) : Schema :=
  mkSchema
    (map (fun c => (fst c, dict_set (snd c) (Some "value") (VStr (f (fst c)))))
         (constants data))
    (events data) (functions data).

(** The text that [normalize_const_value] keeps for a value text. *)
Definition normalized_text (s : string) : string :=
  if startswith s "0x" then s
  else match py_int s with
       | Some n => str_of_int n
       | None => String dquote (s ++ String dquote EmptyString)
       end.

(** ** Sample schemas and documents *)

Definition integer_attr : pykey * pyval := (Some "type", VStr "integer").

(** [{"TRUE": {"type": "integer", "value": "1"}}] *)
Definition TRUE_entry : pykey * pydict pyval :=
  (Some "TRUE", [integer_attr; (Some "value", VStr "1")]).

(** [{"llSay": {"return": "void", "arguments": [{"channel": {"type":
    "integer"}}, {"msg": {"type": "string"}}]}}] *)
Definition llSay_entry : pykey * pydict pyval :=
  (Some "llSay",
   [(Some "return", VStr "void");
    (Some "arguments",
     VList [VDict [(Some "channel", VDict [integer_attr])];
            VDict [(Some "msg", VDict [(Some "type", VStr "string")])]])]).

(** [{"state_entry": {"arguments": []}}] *)
Definition state_entry_entry : pykey * pydict pyval :=
  (Some "state_entry", [(Some "arguments", VList [])]).

Definition touch_start_entry : pykey * pydict pyval :=
  (touch_start,
   [(Some "arguments", VList [VDict [(Some "num_detected", VDict [integer_attr])]])]).

(** A constant, a function and the two events. *)
Definition sample_schema : Schema :=
  mkSchema [TRUE_entry] [state_entry_entry; touch_start_entry] [llSay_entry].


(** A constant whose value is an integer, not text: what the parser makes
    of [<key>value</key><integer>1</integer>]. *)
Definition integer_value_schema : Schema :=
  mkSchema [(Some "FLAG", [integer_attr; (Some "value", VInt 1)])]
           [(touch_start, [])] [].

Definition key_element (name : string) : Element :=
  mkElement "key" (Some name) [].

Definition map_element (chs : list Element) : Element :=
  mkElement "map" None chs.

Definition integer_value_document : Element :=
  mkElement "llsd" None
    [map_element
       [key_element "constants";
        map_element
          [key_element "FLAG";
           map_element [key_element "type"; mkElement "string" (Some "integer") [];
                        key_element "value"; mkElement "integer" (Some "1") []]];
        key_element "events";
        map_element [key_element "touch_start"; map_element []]]].


(** A document with an unpaired last child at each level. *)
Definition odd_document : Element :=
  mkElement "llsd" None
    [map_element
       [key_element "constants";
        map_element
          [key_element "TRUE";
           map_element [key_element "type"; mkElement "string" (Some "integer") [];
                        key_element "value"; mkElement "string" (Some "1") [];
                        key_element "left over"];
           key_element "left over"];
        key_element "left over"]].

(** A constant with a hexadecimal value, and the activation event. *)
Definition hex_schema : Schema :=
  mkSchema [(Some "MASK", [integer_attr; (Some "value", VStr "0x10")])]
           [(touch_start, [])] [].

(** Constants and functions, but no activation event. *)
Definition no_activation_schema : Schema :=
  mkSchema [TRUE_entry] [state_entry_entry] [llSay_entry].

(** ** The entry point

    [main] parses the document, generates the script, writes it to
    [syntax_test.lsl] and prints a summary.  The world it acts on is the
    content of the files it writes and the lines it prints; the outcome of
    [ET.parse] on [keywords.xml] is given, as for [parse_llsd_xml]. *)








(** ** Further notions for the properties of the code *)

(** The value element of the last pair that a loop of the parser takes
    for the key [k]; [qualifies] tells the pairs that the loop takes. *)
Fixpoint last_taken (qualifies : Element * Element -> bool) (k : pykey)
         (ps : list (Element * Element)) (found : option Element)
  : option Element :=
  match ps with
  | [] => found
  | kv :: r =>
      last_taken qualifies k r
        (if qualifies kv && key_eqb k (text (fst kv)) then Some (snd kv) else found)
  end.

Definition item_takes (kv : Element * Element) : bool :=
  String.eqb (tag (fst kv)) "key".

Definition section_takes (kv : Element * Element) : bool :=
  String.eqb (tag (fst kv)) "key" && String.eqb (tag (snd kv)) "map".

Definition schema_takes (kv : Element * Element) : bool :=
  String.eqb (tag (fst kv)) "key" && String.eqb (tag (snd kv)) "map"
  && schema_has (text (fst kv)).

(** The values that can be iterated. *)
Definition is_iterable (v : pyval) : bool :=
  match v with
  | VList _ | VStr _ | VDict _ => true
  | _ => false
  end.

(** The attributes of a symbol that the generator reads. *)
Definition is_read_attribute (k : pykey) : bool :=
  key_eqb k (Some "type") || key_eqb k (Some "value")
  || key_eqb k (Some "return") || key_eqb k (Some "arguments").

(** Every symbol of a section gets the attribute [k], with a value chosen
    by the name of the symbol. *)
Definition set_attribute (k : pykey) (f : pykey -> pyval)
           (section : pydict (pydict pyval)) : pydict (pydict pyval) :=
  map (fun c => (fst c, dict_set (snd c) k (f (fst c)))) section.


(** *** Documents of the expected shape

    In a constant, the value of [value] is a [string] element.  In an
    event or a function, the value of [arguments] is an [array] of [map]
    elements whose values are [map] elements. *)











(** A document of the expected shape, with attributes that the generator
    does not read. *)
Definition string_element (s : string) : Element :=
  mkElement "string" (Some s) [].

Definition keywords_main_map : Element :=
     map_element
       [key_element "constants";
        map_element
          [key_element "TRUE";
           map_element [key_element "tooltip"; string_element "The true value";
                        key_element "type"; string_element "integer";
                        key_element "value"; string_element "1"]];
        key_element "events";
        map_element
          [key_element "state_entry";
           map_element [key_element "tooltip"; string_element "On entry"];
           key_element "touch_start";
           map_element
             [key_element "arguments";
              mkElement "array" None
                [map_element
                   [key_element "num_detected";
                    map_element [key_element "type"; string_element "integer"]]]]];
        key_element "functions";
        map_element
          [key_element "llSay";
           map_element
             [key_element "energy"; mkElement "real" (Some "10.0") [];
              key_element "return"; string_element "void";
              key_element "arguments";
              mkElement "array" None
                [map_element
                   [key_element "channel";
                    map_element [key_element "type"; string_element "integer"]];
                 map_element
                   [key_element "msg";
                    map_element [key_element "type"; string_element "string"]]]]];
        key_element "llsd-lsl-syntax-version"; mkElement "integer" (Some "2") []].

Definition keywords_document : Element :=
  mkElement "llsd" None [keywords_main_map].

(** The schema of that document. *)
Definition keywords_schema : Schema :=
  mkSchema
    [(Some "TRUE",
      [(Some "tooltip", VStr "The true value"); integer_attr;
       (Some "value", VStr "1")])]
    [(Some "state_entry", [(Some "tooltip", VStr "On entry")]);
     touch_start_entry]
    [(Some "llSay",
      (Some "energy", VFloat (float64 10 0)) :: snd llSay_entry)].


(** One step of a loop of the parser, in general: a pair that the loop
    takes puts the parsed value under the text of the key element. *)
Definition taking_step {V : Type} (takes : Element * Element -> bool)
           (valof : Element -> result V) (kv : Element * Element)
           (st : pydict V) : result (pydict V) :=
  if takes kv then
    v <- valof (snd kv) ;; Ret (dict_set st (text (fst kv)) v)
  else Ret st.

(** The section of a schema by its name. *)
Definition schema_get (data : Schema) (section_name : pykey)
  : pydict (pydict pyval) :=
  if key_eqb section_name (Some "constants") then constants data
  else if key_eqb section_name (Some "events") then events data
  else if key_eqb section_name (Some "functions") then functions data
  else [].

(** * Properties *)

(** ** Loops that append to a list *)

Section ForEachAppend.
Context {A B : Type}.
Variable ok : A -> bool.
Variable h : A -> list B.
Variable body : A -> list B -> result (list B).

Hypothesis body_returns :
  forall x acc, ok x = true -> body x acc = Ret (acc ++ h x)%list.

Lemma for_each_append :
  forall xs acc,
    forallb ok xs = true ->
    for_each xs acc body = Ret (acc ++ flat_map h xs)%list.
Proof.
  induction xs as [|x xs IH]; intros acc Hok; simpl.
  - now rewrite app_nil_r.
  - simpl in Hok. apply andb_prop in Hok as [Hx Hxs].
    rewrite (body_returns x acc Hx). simpl.
    rewrite IH by assumption. now rewrite <- app_assoc.
Qed.

Hypothesis body_raises :
  forall x acc, ok x = false -> exists e, body x acc = Raise e.

Lemma for_each_raises :
  forall xs acc,
    forallb ok xs = false ->
    exists e, for_each xs acc body = Raise e.
Proof.
  induction xs as [|x xs IH]; intros acc Hok; simpl in *.
  - discriminate.
  - destruct (ok x) eqn:Hx.
    + rewrite (body_returns x acc Hx). simpl. apply IH. exact Hok.
    + destruct (body_raises x acc Hx) as [e He]. rewrite He. simpl. now exists e.
Qed.
End ForEachAppend.

Lemma flat_map_single {A B : Type} (f : A -> B) (l : list A) :
  flat_map (fun x => [f x]) l = map f l.
Proof.
  induction l as [|a l IH]; simpl; [reflexivity | now rewrite IH].
Qed.

Lemma map_flat_map_comm {A B C : Type} (f : B -> C) (g : A -> list B) (l : list A) :
  map f (flat_map g l) = flat_map (fun x => map f (g x)) l.
Proof.
  induction l as [|a l IH]; simpl; [reflexivity|].
  now rewrite map_app, IH.
Qed.

(** ** The parameters of an event *)

Lemma py_get_dict (v : pyval) (k : pykey) (d : pyval) :
  is_dict v = true -> py_get v k d = Ret (get_default (entries v) k d).
Proof. destruct v; simpl; intros H; try discriminate; reflexivity. Qed.

Lemma py_get_not_dict (v : pyval) (k : pykey) (d : pyval) :
  is_dict v = false -> py_get v k d = Raise AttributeError.
Proof. destruct v; simpl; intros H; try discriminate; reflexivity. Qed.

Lemma py_items_dict (v : pyval) :
  is_dict v = true -> py_items v = Ret (entries v).
Proof. destruct v; simpl; intros H; try discriminate; reflexivity. Qed.

Lemma py_items_not_dict (v : pyval) :
  is_dict v = false -> py_items v = Raise AttributeError.
Proof. destruct v; simpl; intros H; try discriminate; reflexivity. Qed.

(** The two nested loops over [arguments], for any way [g] of turning an
    entry into what is appended. *)
Section ArgumentLoops.
Context {B : Type}.
Variable g : pykey * pyval -> B.

Lemma entry_loop_returns (items : pydict pyval) (acc : list B) :
  forallb (fun kv => is_dict (snd kv)) items = true ->
  entry_loop g items acc = Ret (acc ++ map (fun kv => g (param_of kv)) items)%list.
Proof.
  intros H. unfold entry_loop.
  rewrite (for_each_append (fun kv => is_dict (snd kv))
             (fun kv => [g (param_of kv)])).
  - now rewrite flat_map_single.
  - intros [name arg_data] acc' Hd. simpl in Hd.
    rewrite (py_get_dict _ _ _ Hd). reflexivity.
  - exact H.
Qed.

Lemma entry_loop_raises (items : pydict pyval) (acc : list B) :
  forallb (fun kv => is_dict (snd kv)) items = false ->
  exists e, entry_loop g items acc = Raise e.
Proof.
  intros H. unfold entry_loop.
  apply (for_each_raises (fun kv => is_dict (snd kv))
           (fun kv => [g (param_of kv)])).
  - intros [name arg_data] acc' Hd. simpl in Hd.
    rewrite (py_get_dict _ _ _ Hd). reflexivity.
  - intros [name arg_data] acc' Hd. simpl in Hd.
    rewrite (py_get_not_dict _ _ _ Hd). now exists AttributeError.
  - exact H.
Qed.

Lemma arg_loop_step_returns (arg_map : pyval) (acc : list B) :
  arg_map_ok arg_map = true ->
  (items <- py_items arg_map ;; entry_loop g items acc)
  = Ret (acc ++ map (fun kv => g (param_of kv)) (entries arg_map))%list.
Proof.
  unfold arg_map_ok. intros H. apply andb_prop in H as [Hd He].
  rewrite (py_items_dict _ Hd). simpl. now apply entry_loop_returns.
Qed.

Lemma arg_loop_step_raises (arg_map : pyval) (acc : list B) :
  arg_map_ok arg_map = false ->
  exists e, (items <- py_items arg_map ;; entry_loop g items acc) = Raise e.
Proof.
  unfold arg_map_ok. intros H. destruct (is_dict arg_map) eqn:Hd.
  - rewrite (py_items_dict _ Hd). simpl. now apply entry_loop_raises.
  - rewrite (py_items_not_dict _ Hd). now exists AttributeError.
Qed.

Lemma arg_loop_returns (arg_maps : list pyval) (acc : list B) :
  forallb arg_map_ok arg_maps = true ->
  arg_loop g arg_maps acc
  = Ret (acc ++ map (fun kv => g (param_of kv)) (flat_map entries arg_maps))%list.
Proof.
  intros H. unfold arg_loop.
  rewrite (for_each_append arg_map_ok
             (fun m => map (fun kv => g (param_of kv)) (entries m))).
  - now rewrite map_flat_map_comm.
  - intros; now apply arg_loop_step_returns.
  - exact H.
Qed.

Lemma arg_loop_raises (arg_maps : list pyval) (acc : list B) :
  forallb arg_map_ok arg_maps = false ->
  exists e, arg_loop g arg_maps acc = Raise e.
Proof.
  intros H. unfold arg_loop.
  apply (for_each_raises arg_map_ok
           (fun m => map (fun kv => g (param_of kv)) (entries m))).
  - intros; now apply arg_loop_step_returns.
  - intros; now apply arg_loop_step_raises.
  - exact H.
Qed.

(** Iterating [arguments] and running the loops. *)
Lemma iterate_arguments_returns (arguments : pyval) (acc : list B) :
  arguments_ok arguments = true ->
  (arg_maps <- py_iter arguments ;; arg_loop g arg_maps acc)
  = Ret (acc ++ map (fun kv => g (param_of kv)) (arg_entries arguments))%list.
Proof.
  unfold arguments_ok, arg_entries. intros H.
  destruct (py_iter arguments) as [l|e]; [|discriminate].
  simpl. now apply arg_loop_returns.
Qed.

Lemma iterate_arguments_raises (arguments : pyval) (acc : list B) :
  arguments_ok arguments = false ->
  exists e, (arg_maps <- py_iter arguments ;; arg_loop g arg_maps acc) = Raise e.
Proof.
  unfold arguments_ok. intros H.
  destruct (py_iter arguments) as [l|e]; simpl.
  - now apply arg_loop_raises.
  - now exists e.
Qed.
End ArgumentLoops.

Lemma get_event_parameters_returns (event_data : pydict pyval) :
  event_ok event_data = true ->
  get_event_parameters event_data = Ret (event_parameters_of event_data).
Proof.
  unfold event_ok, get_event_parameters, event_parameters_of.
  destruct (dict_get event_data (Some "arguments")) as [a|]; [|reflexivity].
  intros H.
  exact (iterate_arguments_returns (fun p => p) a [] H).
Qed.

Lemma get_event_parameters_raises (event_data : pydict pyval) :
  event_ok event_data = false ->
  exists e, get_event_parameters event_data = Raise e.
Proof.
  unfold event_ok, get_event_parameters.
  destruct (dict_get event_data (Some "arguments")) as [a|]; [|discriminate].
  intros H.
  exact (iterate_arguments_raises (fun p => p) a [] H).
Qed.

(** ** Text lemmas *)



Lemma drop_length (k : nat) (s : string) :
  String.length (drop k s) <= String.length s.
Proof.
  revert s; induction k as [|k IH]; intros [|c r]; simpl; try lia.
  specialize (IH r). lia.
Qed.

Lemma prefix_split (p s : string) :
  String.prefix p s = true -> s = p ++ drop (String.length p) s.
Proof.
  revert s; induction p as [|a p IH]; intros [|b s] H; simpl in *;
    try reflexivity; try discriminate.
  destruct (ascii_dec a b) as [->|]; [|discriminate].
  f_equal. now apply IH.
Qed.

Lemma replace_from_skip (old new : string) (s : string) :
  forall k, replace_from old new k s = replace_from old new 0 (drop k s).
Proof.
  induction s as [|c r IH]; intros [|k]; simpl; try reflexivity.
  apply IH.
Qed.

Lemma replace_from_same (old : string) :
  old <> "" ->
  forall n s, String.length s <= n -> replace_from old old 0 s = s.
Proof.
  intros Hne. induction n as [|n IH]; intros [|c r] Hlen;
    try reflexivity; simpl in Hlen; try lia.
  change (replace_from old old 0 (String c r))
    with (if String.prefix old (String c r)
          then old ++ replace_from old old (String.length old - 1) r
          else String c (replace_from old old 0 r)).
  destruct (String.prefix old (String c r)) eqn:Hp.
  - pose proof (prefix_split _ _ Hp) as Hs.
    rewrite replace_from_skip, IH.
    + destruct old as [|a old']; [congruence|].
      simpl in Hs. injection Hs as Ha Hs. subst a.
      simpl String.length.
      replace (S (String.length old') - 1) with (String.length old') by lia.
      simpl. now rewrite <- Hs.
    + pose proof (drop_length (String.length old - 1) r). lia.
  - f_equal. apply IH. lia.
Qed.

(** [s.replace(x, x)] is [s]. *)
Lemma replace_same (s x : string) : replace s x x = s.
Proof.
  destruct x as [|a x]; simpl.
  - induction s as [|c r IH]; simpl; [reflexivity | now rewrite IH].
  - apply (replace_from_same (String a x)) with (n := String.length s);
      [discriminate | lia].
Qed.

(** ** The pieces of the generator *)

Lemma normalize_const_value_text (s : string) :
  normalize_const_value (VStr s) = Ret (VStr (normalized_text s)).
Proof.
  unfold normalize_const_value, normalized_text, py_startswith, py_replace, bind.
  cbv beta iota.
  destruct (startswith s "0x").
  - now rewrite replace_same.
  - unfold py_int_of_text. destruct (py_int s); reflexivity.
Qed.

Lemma normalize_const_value_not_text (v : pyval) :
  is_text v = false -> normalize_const_value v = Raise AttributeError.
Proof. destruct v; simpl; intros H; try discriminate; reflexivity. Qed.

Lemma param_str_join (ps : list (pykey * pyval)) :
  match ps with
  | _ :: _ =>
      join ", " (map (fun '(param_name, param_type) =>
                        py_str param_type ++ " " ++ key_str param_name) ps)
  | [] => ""
  end = join ", " (map param_text ps).
Proof.
  destruct ps as [|p ps]; [reflexivity|].
  f_equal. apply map_ext. intros [n t]. reflexivity.
Qed.

Lemma call_statement_ret_var (return_type : pyval) (call : string) :
  call_statement return_type call
  = if is_str return_type "void"
    then "        " ++ call ++ ";"
    else "        " ++ ret_var return_type ++ "=" ++ call ++ ";".
Proof.
  unfold call_statement, ret_var.
  repeat match goal with
         | |- context [is_str return_type ?t] => destruct (is_str return_type t)
         end; reflexivity.
Qed.

Lemma dict_mem_get {V : Type} (d : pydict V) (k : pykey) :
  dict_mem d k = is_some (dict_get d k).
Proof. unfold dict_mem. destruct (dict_get d k); reflexivity. Qed.

(** ** The generator against its specification *)

Ltac name_loop_body xs b :=
  match goal with
  | |- context [for_each xs _ ?f] => set (b := f)
  end.

Ltac raise_in_loop Hret Herr Hall :=
  match goal with
  | |- context [for_each ?xs ?acc ?b] =>
      let e := fresh "e" in
      let He := fresh "He" in
      destruct (for_each_raises _ _ b Hret Herr xs acc Hall) as [e He];
      rewrite He; cbn [bind]; now exists e
  end.

Lemma generate_lsl_script_spec (data : Schema) :
  (schema_ok data = true ->
   generate_lsl_script data = Ret (join newline (script_lines data)))
  /\ (schema_ok data = false ->
      exists e, generate_lsl_script data = Raise e).
Proof.
  unfold generate_lsl_script.
  name_loop_body (constants data) cbody.
  name_loop_body (functions data) fbody.
  name_loop_body (events data) ebody.
  (* the loop over the constants *)
  assert (Hc_ret : forall c acc, const_ok (snd c) = true ->
                                 cbody c acc = Ret (acc ++ [const_line c])%list).
  { intros [name cd] acc Hc. unfold cbody, const_ok in *. simpl in Hc.
    destruct (get_default cd (Some "value") (VStr "0")); try discriminate.
    rewrite normalize_const_value_text. reflexivity. }
  assert (Hc_err : forall c acc, const_ok (snd c) = false ->
                                 exists e, cbody c acc = Raise e).
  { intros [name cd] acc Hc. unfold cbody, const_ok in *. simpl in Hc.
    rewrite (normalize_const_value_not_text _ Hc). now exists AttributeError. }
  (* the loop over the functions *)
  assert (Hf_ret : forall f acc, func_ok (snd f) = true ->
                                 fbody f acc = Ret (acc ++ [func_line f])%list).
  { intros [name fd] acc Hf. unfold fbody. unfold func_ok in Hf.
    unfold func_line, func_call, func_args, get_default.
    cbn [fst snd] in *. rewrite dict_mem_get.
    destruct (dict_get fd (Some "arguments")) as [a|]; cbn [is_some andb].
    - destruct (py_truthy a).
      + pose proof (iterate_arguments_returns (fun p => arg_var (snd p)) a [] Hf) as Hl.
        unfold arg_loop, entry_loop in Hl. cbn [app snd] in Hl. unfold append.
        destruct (py_iter a) as [l|e]; cbn [bind] in *; [|discriminate].
        rewrite Hl. cbn [bind]. now rewrite call_statement_ret_var.
      + cbn [bind]. now rewrite call_statement_ret_var.
    - cbn [bind]. now rewrite call_statement_ret_var. }
  assert (Hf_err : forall f acc, func_ok (snd f) = false ->
                                 exists e, fbody f acc = Raise e).
  { intros [name fd] acc Hf. unfold fbody. unfold func_ok in Hf.
    unfold get_default. cbn [fst snd] in *. rewrite dict_mem_get.
    destruct (dict_get fd (Some "arguments")) as [a|]; [|discriminate].
    cbn [is_some andb].
    destruct (py_truthy a); [|discriminate].
    destruct (iterate_arguments_raises (fun p => arg_var (snd p)) a [] Hf) as [e He].
    unfold arg_loop, entry_loop in He. cbn [app snd] in He. unfold append.
    destruct (py_iter a) as [l|e']; cbn [bind] in *.
    - rewrite He. now exists e.
    - now exists e'. }
  (* the loop over the events *)
  assert (He_ret : forall ev acc,
             event_ok (snd ev) && body_ok data (fst ev) = true ->
             ebody ev acc = Ret (acc ++ event_block data ev)%list).
  { intros [name ed] acc Hok. apply andb_prop in Hok as [Hev Hbody].
    simpl in Hev, Hbody. unfold ebody.
    rewrite (get_event_parameters_returns _ Hev). simpl.
    rewrite param_str_join.
    unfold event_block, event_body, body_ok in *. simpl fst; simpl snd.
    destruct (key_eqb name touch_start).
    - apply andb_prop in Hbody as [Hcs Hfs].
      rewrite (for_each_append _ _ cbody Hc_ret _ _ Hcs). simpl.
      rewrite (for_each_append _ _ fbody Hf_ret _ _ Hfs). simpl.
      unfold append, activation_body, builtin_lines, event_header.
      rewrite !flat_map_single. repeat rewrite <- app_assoc. reflexivity.
    - simpl. unfold append, empty_body, event_header.
      repeat rewrite <- app_assoc. reflexivity. }
  assert (He_err : forall ev acc,
             event_ok (snd ev) && body_ok data (fst ev) = false ->
             exists e, ebody ev acc = Raise e).
  { intros [name ed] acc Hok. simpl in Hok. unfold ebody.
    destruct (event_ok ed) eqn:Hev.
    - rewrite (get_event_parameters_returns _ Hev). simpl.
      unfold body_ok in Hok. simpl in Hok.
      destruct (key_eqb name touch_start); [|discriminate].
      destruct (forallb (fun c => const_ok (snd c)) (constants data)) eqn:Hcs.
      + rewrite (for_each_append _ _ cbody Hc_ret _ _ Hcs). cbn [bind].
        cbn [andb] in Hok.
        raise_in_loop Hf_ret Hf_err Hok.
      + raise_in_loop Hc_ret Hc_err Hcs.
    - destruct (get_event_parameters_raises _ Hev) as [e He].
      rewrite He. now exists e. }
  split; intros H.
  - unfold schema_ok in H.
    rewrite (for_each_append _ _ ebody He_ret _ _ H). simpl.
    unfold script_lines, append, preamble. simpl.
    repeat rewrite <- app_assoc. reflexivity.
  - unfold schema_ok in H.
    raise_in_loop He_ret He_err H.
Qed.

(** ** The index loops of the parser walk the children two by two *)

Lemma list_ind2 {A : Type} (P : list A -> Prop) :
  P [] -> (forall a, P [a]) -> (forall a b r, P r -> P (a :: b :: r)) ->
  forall l, P l.
Proof.
  intros H0 H1 H2.
  assert (H : forall l, P l /\ forall a, P (a :: l)).
  { induction l as [|x l [IHl IHxl]]; split; auto. }
  intros l. apply H.
Qed.

Lemma range_by_two (n : nat) :
  range 0 n 2 = map (fun j => j * 2) (seq 0 ((n + 1) / 2)).
Proof.
  unfold range. replace (n - 0 + 2 - 1) with (n + 1) by lia. reflexivity.
Qed.

Lemma half_succ_succ (n : nat) : (S (S n) + 1) / 2 = S ((n + 1) / 2).
Proof.
  replace (S (S n) + 1) with (n + 1 + 1 * 2) by lia.
  rewrite Nat.div_add by lia. lia.
Qed.

Section IndexLoop.
Context {A St : Type}.
Variable l : list A.
Variable body : nat -> St -> result (control St).
Variable step : A * A -> St -> result St.

Hypothesis body_pair :
  forall i a b st,
    nth_error l i = Some a -> nth_error l (i + 1) = Some b ->
    body i st = (st' <- step (a, b) st ;; Ret (Next st')).

Hypothesis body_break :
  forall i st, List.length l <= i + 1 -> body i st = Ret (Break st).

Lemma for_index_from (rest : list A) :
  forall (pre : list A) (k : nat) (st : St),
    l = (pre ++ rest)%list -> List.length pre = k * 2 ->
    for_index (map (fun j => j * 2) (seq k ((List.length rest + 1) / 2))) st body
    = for_each (pairs rest) st step.
Proof.
  induction rest as [|a|a b r IH] using list_ind2; intros pre k st Hl Hk.
  - reflexivity.
  - simpl. rewrite body_break; [reflexivity|].
    rewrite Hl, length_app. simpl. lia.
  - cbn [List.length]. rewrite half_succ_succ. cbn [seq map for_index pairs for_each].
    rewrite (body_pair (k * 2) a b).
    + destruct (step (a, b) st) as [st'|e]; cbn [bind]; [|reflexivity].
      apply (IH (pre ++ [a; b])%list (S k)).
      * now rewrite <- app_assoc.
      * rewrite length_app. simpl. lia.
    + rewrite Hl, nth_error_app2 by lia.
      replace (k * 2 - List.length pre) with 0 by lia. reflexivity.
    + rewrite Hl, nth_error_app2 by lia.
      replace (k * 2 + 1 - List.length pre) with 1 by lia. reflexivity.
Qed.

Lemma for_index_pairs (st : St) :
  for_index (range 0 (List.length l) 2) st body = for_each (pairs l) st step.
Proof.
  rewrite range_by_two. now apply (for_index_from l []).
Qed.
End IndexLoop.

Lemma nth_error_in_range {A : Type} (l : list A) (i : nat) (a : A) :
  nth_error l i = Some a -> i < List.length l.
Proof. intros H. apply nth_error_Some. congruence. Qed.

Lemma getitem_nth (e c : Element) (i : nat) :
  nth_error (children e) i = Some c -> getitem e i = Ret c.
Proof. unfold getitem. now intros ->. Qed.

(** The table holds the call of [parse_value] on the child asked for. *)
Lemma call_at_table (chs : list Element) (j : nat) (c : Element) :
  nth_error chs j = Some c ->
  call_at (map parse_value chs) j = parse_value c.
Proof.
  intros H. unfold call_at. now rewrite (map_nth_error parse_value _ _ H).
Qed.

Lemma parse_item_loop_pairs (item_map : Element) :
  parse_item_loop item_map (map parse_value (children item_map))
  = for_each (pairs (children item_map)) [] item_step.
Proof.
  unfold parse_item_loop, len.
  apply for_index_pairs.
  - intros i a b st Ha Hb.
    pose proof (nth_error_in_range _ _ _ Hb) as Hlt.
    destruct (Nat.leb_spec (List.length (children item_map)) (i + 1)) as [Hle|_];
      [lia|].
    rewrite (getitem_nth _ _ _ Ha), (getitem_nth _ _ _ Hb). cbn [bind].
    rewrite (call_at_table _ _ _ Hb). unfold item_step.
    destruct (String.eqb (tag a) "key"); [|reflexivity].
    destruct (parse_value b); reflexivity.
  - intros i st Hle.
    destruct (Nat.leb_spec (List.length (children item_map)) (i + 1)) as [_|Hlt];
      [reflexivity | lia].
Qed.

Lemma parse_item_pairs (item_map : Element) :
  parse_item item_map = for_each (pairs (children item_map)) [] item_step.
Proof. apply parse_item_loop_pairs. Qed.

Lemma parse_section_pairs (section_map : Element) :
  parse_section section_map
  = for_each (pairs (children section_map)) [] section_step.
Proof.
  unfold parse_section, len.
  apply for_index_pairs.
  - intros i a b st Ha Hb.
    pose proof (nth_error_in_range _ _ _ Hb) as Hlt.
    destruct (Nat.leb_spec (List.length (children section_map)) (i + 1)) as [Hle|_];
      [lia|].
    rewrite (getitem_nth _ _ _ Ha), (getitem_nth _ _ _ Hb). cbn [bind].
    unfold section_step.
    destruct (String.eqb (tag a) "key" && String.eqb (tag b) "map"); [|reflexivity].
    destruct (parse_item b); reflexivity.
  - intros i st Hle.
    destruct (Nat.leb_spec (List.length (children section_map)) (i + 1)) as [_|Hlt];
      [reflexivity | lia].
Qed.

Lemma parse_llsd_xml_pairs (root main_map : Element) :
  find root "map" = Some main_map ->
  parse_llsd_xml (Ret root)
  = for_each (pairs (children main_map)) empty_schema schema_step.
Proof.
  intros Hfind. unfold parse_llsd_xml. cbn [bind]. rewrite Hfind. unfold len.
  apply for_index_pairs.
  - intros i a b st Ha Hb.
    pose proof (nth_error_in_range _ _ _ Hb) as Hlt.
    destruct (Nat.leb_spec (List.length (children main_map)) (i + 1)) as [Hle|_];
      [lia|].
    rewrite (getitem_nth _ _ _ Ha), (getitem_nth _ _ _ Hb). cbn [bind].
    unfold schema_step.
    destruct (String.eqb (tag a) "key" && String.eqb (tag b) "map"); [|reflexivity].
    destruct (schema_has (text a)); [|reflexivity].
    destruct (parse_section b); reflexivity.
  - intros i st Hle.
    destruct (Nat.leb_spec (List.length (children main_map)) (i + 1)) as [_|Hlt];
      [reflexivity | lia].
Qed.

Lemma parse_llsd_xml_no_map (root : Element) :
  find root "map" = None -> parse_llsd_xml (Ret root) = Ret empty_schema.
Proof. intros H. unfold parse_llsd_xml. cbn [bind]. now rewrite H. Qed.

(** The pair at position [j] is made of the children [2j] and [2j+1]. *)
Lemma pairs_nth_error {A : Type} (l : list A) :
  forall j a b,
    nth_error (pairs l) j = Some (a, b)
    <-> nth_error l (2 * j) = Some a /\ nth_error l (2 * j + 1) = Some b.
Proof.
  induction l as [|x|x y r IH] using list_ind2; intros j a b.
  - simpl. destruct j; simpl; split; intros H; try discriminate;
      destruct H; discriminate.
  - destruct j as [|j]; simpl; split; try discriminate.
    + intros [_ H]. discriminate.
    + intros [H _]. replace (j + S (j + 0)) with (S (2 * j)) in H by lia.
      simpl in H. destruct (2 * j); discriminate.
  - destruct j as [|j].
    + simpl. split.
      * intros H. injection H as -> ->. now split.
      * intros [H1 H2]. congruence.
    + replace (2 * S j) with (S (S (2 * j))) by lia.
      cbn [pairs nth_error plus]. apply IH.
Qed.

(** An unpaired last child is not looked at. *)
Lemma pairs_drop_last {A : Type} (l : list A) (x : A) :
  Nat.even (List.length l) = true -> pairs (l ++ [x]) = pairs l.
Proof.
  induction l as [|a|a b r IH] using list_ind2; intros H.
  - reflexivity.
  - discriminate.
  - cbn [app pairs]. f_equal. apply IH. exact H.
Qed.

(** ** When the parser returns *)




Section CheckedLoop.
Context {A St : Type}.
Variable ok : A -> bool.
Variable step : A -> St -> result St.

End CheckedLoop.









(** ** Occurrences of a text in the joined lines *)

Lemma prefix_append (p b : string) : String.prefix p (p ++ b) = true.
Proof.
  induction p as [|c p IH]; simpl; [now destruct b|].
  destruct (ascii_dec c c); [exact IH | congruence].
Qed.

Lemma occursb_unfold (pat s : string) :
  occursb pat s
  = String.prefix pat s
    || match s with
       | EmptyString => false
       | String _ r => occursb pat r
       end.
Proof. destruct s; reflexivity. Qed.

Lemma occursb_complete (pat s : string) : occurs pat s -> occursb pat s = true.
Proof.
  intros [a [b ->]]. induction a as [|c a IH].
  - change ("" ++ pat ++ b) with (pat ++ b).
    now rewrite occursb_unfold, prefix_append.
  - change (String c a ++ pat ++ b) with (String c (a ++ pat ++ b)).
    rewrite occursb_unfold, IH. apply orb_true_r.
Qed.

Lemma occursb_absent (pat s : string) : occursb pat s = false -> ~ occurs pat s.
Proof.
  intros H Hocc. apply occursb_complete in Hocc. congruence.
Qed.







(** ** Schemas of the data model generate *)






Lemma generate_returns_script (data : Schema) :
  schema_ok data = true ->
  generate_lsl_script data = Ret (join newline (script_lines data)).
Proof. apply generate_lsl_script_spec. Qed.

Lemma generate_returns_iff (data : Schema) :
  (exists out, generate_lsl_script data = Ret out) <-> schema_ok data = true.
Proof.
  split.
  - intros [out Hout]. destruct (schema_ok data) eqn:Hok; [reflexivity|].
    destruct (proj2 (generate_lsl_script_spec data) Hok) as [e He]. congruence.
  - intros Hok. eexists. now apply generate_returns_script.
Qed.


(** ** Dict updates *)

Lemma key_eqb_refl (k : pykey) : key_eqb k k = true.
Proof. destruct k as [s|]; simpl; [apply String.eqb_refl | reflexivity]. Qed.

Lemma key_eqb_eq (a b : pykey) : key_eqb a b = true -> a = b.
Proof.
  destruct a as [x|], b as [y|]; simpl; intros H; try discriminate; auto.
  apply String.eqb_eq in H. now subst.
Qed.

Lemma dict_get_set_same {V : Type} (d : pydict V) (k : pykey) (v : V) :
  dict_get (dict_set d k v) k = Some v.
Proof.
  induction d as [|[k' v'] r IH]; cbn [dict_set dict_get].
  - now rewrite key_eqb_refl.
  - destruct (key_eqb k k') eqn:Hk; cbn [dict_get]; rewrite Hk; auto.
Qed.

Lemma dict_get_set_other {V : Type} (d : pydict V) (k k2 : pykey) (v : V) :
  key_eqb k2 k = false ->
  dict_get (dict_set d k v) k2 = dict_get d k2.
Proof.
  intros Hne. induction d as [|[k' v'] r IH]; cbn [dict_set dict_get].
  - now rewrite Hne.
  - destruct (key_eqb k k') eqn:Hk; cbn [dict_get].
    + apply key_eqb_eq in Hk. subst k'. now rewrite Hne.
    + now rewrite IH.
Qed.

Lemma for_each_ext {A St : Type} (xs : list A) (b1 b2 : A -> St -> result St) :
  (forall x st, b1 x st = b2 x st) ->
  forall st, for_each xs st b1 = for_each xs st b2.
Proof.
  intros Hext. induction xs as [|x xs IH]; intros st; cbn [for_each].
  - reflexivity.
  - rewrite Hext. destruct (b2 x st); cbn [bind]; auto.
Qed.

(** ** C1: totality of the generator *)

(** The generator raises on a constant whose value is an integer. *)
Lemma integer_value_schema_parsed :
  parse_llsd_xml (Ret integer_value_document) = Ret integer_value_schema.
Proof. vm_compute. reflexivity. Qed.




(** ** C2: the value of a constant *)

(** C2, counterexample.  The constant [MASK] has the value [0x10]; the
    script assigns the name of the constant and the value is nowhere in
    it. *)
Lemma hex_value_not_in_output :
  exists out,
    generate_lsl_script hex_schema = Ret out /\ ~ occurs "0x10" out.
Proof.
  eexists. split.
  - vm_compute. reflexivity.
  - apply occursb_absent. vm_compute. reflexivity.
Qed.

(** Whatever the value texts, the loop over the constants appends the
    same lines, and so the generator does the same. *)
Lemma generate_with_values (f g : pykey -> string) (data : Schema) :
  generate_lsl_script (with_values f data)
  = generate_lsl_script (with_values g data).
Proof.
  unfold generate_lsl_script. cbn [events functions constants with_values].
  match goal with
  | |- bind (for_each _ _ ?b1) _ = bind (for_each _ _ ?b2) _ =>
      rewrite (for_each_ext _ b1 b2); [reflexivity|]
  end.
  intros [name ed] st.
  destruct (get_event_parameters ed) as [ps|e]; cbn [bind]; [|reflexivity].
  destruct (key_eqb name touch_start); [|reflexivity].
  match goal with
  | |- context [for_each (map _ (constants data)) _ ?cb] =>
      assert (Hc : forall h acc,
                 for_each
                   (map (fun c => (fst c, dict_set (snd c) (Some "value")
                                            (VStr (h (fst c)))))
                        (constants data)) acc cb
                 = Ret (acc ++ map const_line (constants data))%list)
  end.
  { intros h. induction (constants data) as [|[n cd] cs IH]; intros acc;
      cbn [map for_each fst snd].
    - now rewrite app_nil_r.
    - unfold get_default at 1 2.
      rewrite dict_get_set_same, dict_get_set_other by reflexivity.
      rewrite normalize_const_value_text. cbn [bind].
      rewrite IH. unfold append, const_line, get_default. cbn [fst snd].
      now rewrite <- app_assoc. }
  now rewrite !Hc.
Qed.

(** C2, amended.  A value text that begins with [0x] is kept as it is;
    any other text becomes the decimal numeral of the integer it denotes,
    or the text between double quotes when it denotes none.  The text so
    obtained is not emitted: whatever texts the constants have as values,
    the generator does the same. *)
Theorem const_value_normalized_not_emitted :
  (forall s, startswith s "0x" = true ->
             normalize_const_value (VStr s) = Ret (VStr s))
  /\ (forall s, startswith s "0x" = false ->
                normalize_const_value (VStr s)
                = Ret (VStr (match py_int s with
                             | Some n => str_of_int n
                             | None => String dquote (s ++ String dquote EmptyString)
                             end)))
  /\ (forall data f g,
         generate_lsl_script (with_values f data)
         = generate_lsl_script (with_values g data)).
Proof.
  split; [|split].
  - intros s Hs. rewrite normalize_const_value_text.
    unfold normalized_text. now rewrite Hs.
  - intros s Hs. rewrite normalize_const_value_text.
    unfold normalized_text. now rewrite Hs.
  - intros data f g. apply generate_with_values.
Qed.

(** ** C3: the errors of the parser *)



(** ** A dict has one entry per key *)

Lemma key_eqb_neq (a b : pykey) : key_eqb a b = false -> a <> b.
Proof. intros H ->. now rewrite key_eqb_refl in H. Qed.

Lemma dict_get_not_in {V : Type} (d : pydict V) (k : pykey) :
  ~ In k (keys d) -> dict_get d k = None.
Proof.
  induction d as [|[k' v] r IH]; cbn [keys map In dict_get fst]; intros Hn.
  - reflexivity.
  - destruct (key_eqb k k') eqn:Hk.
    + apply key_eqb_eq in Hk. subst. tauto.
    + apply IH. unfold keys. tauto.
Qed.

Lemma keys_dict_set {V : Type} (d : pydict V) (k : pykey) (v : V) :
  keys (dict_set d k v)
  = if dict_mem d k then keys d else (keys d ++ [k])%list.
Proof.
  unfold dict_mem.
  induction d as [|[k' v'] r IH]; cbn [dict_set dict_get keys map fst app].
  - reflexivity.
  - destruct (key_eqb k k') eqn:Hk; cbn [keys map fst].
    + reflexivity.
    + fold (keys (dict_set r k v)). rewrite IH. fold (keys r).
      now destruct (dict_get r k).
Qed.

(** [d[k] = v] keeps the keys of a dict distinct. *)
Lemma dict_set_NoDup {V : Type} (d : pydict V) (k : pykey) (v : V) :
  NoDup (keys d) -> NoDup (keys (dict_set d k v)).
Proof.
  intros Hnd. rewrite keys_dict_set. unfold dict_mem.
  destruct (dict_get d k) eqn:Hget; [exact Hnd|].
  apply NoDup_app; [exact Hnd | repeat constructor; auto |].
  intros x Hx [<-|[]].
  clear Hnd. induction d as [|[k' v'] r IH]; [contradiction|].
  cbn [dict_get] in Hget. destruct (key_eqb k k') eqn:Hk; [discriminate|].
  destruct Hx as [Hx|Hx]; cbn [fst] in Hx.
  - subst. now rewrite key_eqb_refl in Hk.
  - now apply IH.
Qed.

Lemma for_each_invariant {A St : Type} (P : St -> Prop)
      (step : A -> St -> result St) (xs : list A) :
  (forall x st st', P st -> step x st = Ret st' -> P st') ->
  forall st st', P st -> for_each xs st step = Ret st' -> P st'.
Proof.
  intros Hstep. induction xs as [|x xs IH]; intros st st' HP; cbn [for_each].
  - intros H. injection H as <-. exact HP.
  - destruct (step x st) as [st1|e] eqn:Hx; cbn [bind]; [|discriminate].
    apply IH. now apply (Hstep x st).
Qed.

(** The sections that the parser builds have distinct keys. *)
Lemma parse_section_NoDup (section_map : Element) (d : pydict (pydict pyval)) :
  parse_section section_map = Ret d -> NoDup (keys d).
Proof.
  rewrite parse_section_pairs.
  apply (for_each_invariant (fun st => NoDup (keys st))); [|constructor].
  intros [k v] st st' Hst. unfold section_step.
  destruct (String.eqb (tag k) "key" && String.eqb (tag v) "map").
  - destruct (parse_item v); cbn [bind]; [|discriminate].
    intros H. injection H as <-. now apply dict_set_NoDup.
  - intros H. injection H as <-. exact Hst.
Qed.

Lemma parse_llsd_xml_keys_distinct (root : Element) (data : Schema) :
  parse_llsd_xml (Ret root) = Ret data -> keys_distinct data.
Proof.
  assert (Hempty : keys_distinct empty_schema)
    by (repeat split; constructor).
  destruct (find root "map") as [main_map|] eqn:Hfind.
  - rewrite (parse_llsd_xml_pairs _ _ Hfind).
    apply (for_each_invariant keys_distinct); [|exact Hempty].
    intros [k v] st st' Hst. unfold schema_step.
    destruct (String.eqb (tag k) "key" && String.eqb (tag v) "map");
      [|intros H; injection H as <-; exact Hst].
    destruct (schema_has (text k));
      [|intros H; injection H as <-; exact Hst].
    destruct (parse_section v) as [sec|e] eqn:Hsec; cbn [bind]; [|discriminate].
    intros H. injection H as <-.
    apply parse_section_NoDup in Hsec.
    destruct Hst as [Hc [He Hf]]. unfold schema_set, keys_distinct.
    destruct (key_eqb (text k) (Some "constants")); [now repeat split|].
    destruct (key_eqb (text k) (Some "events")); [now repeat split|].
    destruct (key_eqb (text k) (Some "functions")); now repeat split.
  - rewrite (parse_llsd_xml_no_map _ Hfind).
    intros H. injection H as <-. exact Hempty.
Qed.

(** A dict that holds [touch_start] holds it once. *)
Lemma single_activation_event {V : Type} (evs : pydict V) :
  NoDup (keys evs) ->
  dict_mem evs touch_start = true ->
  exists evs1 event_data evs2,
    evs = (evs1 ++ (touch_start, event_data) :: evs2)%list
    /\ Forall (fun ev => key_eqb (fst ev) touch_start = false) (evs1 ++ evs2)%list.
Proof.
  unfold dict_mem.
  induction evs as [|[name ed] evs IH]; cbn [keys map fst dict_get];
    intros Hnd Hmem; [discriminate|].
  apply NoDup_cons_iff in Hnd as [Hnotin Hnd].
  destruct (key_eqb touch_start name) eqn:Hk.
  - apply key_eqb_eq in Hk. subst name.
    exists [], ed, evs. split; [reflexivity|].
    cbn [app]. apply Forall_forall. intros [n d] Hin. cbn [fst].
    destruct (key_eqb n touch_start) eqn:Hn; [|reflexivity].
    apply key_eqb_eq in Hn. subst n. exfalso. apply Hnotin.
    change touch_start with (fst (touch_start, d)). now apply in_map.
  - destruct (IH Hnd Hmem) as [evs1 [ed' [evs2 [-> Hall]]]].
    exists ((name, ed) :: evs1), ed', evs2. split; [reflexivity|].
    cbn [app]. constructor; [|exact Hall]. cbn [fst].
    destruct (key_eqb name touch_start) eqn:Hn; [|reflexivity].
    apply key_eqb_eq in Hn. subst name. now rewrite key_eqb_refl in Hk.
Qed.

Lemma plain_blocks (data : Schema) (evs : pydict (pydict pyval)) :
  Forall (fun ev => key_eqb (fst ev) touch_start = false) evs ->
  flat_map (event_block data) evs = flat_map plain_block evs.
Proof.
  induction 1 as [|ev evs Hev _ IH]; cbn [flat_map]; [reflexivity|].
  rewrite IH. f_equal. unfold event_block, event_body. now rewrite Hev.
Qed.

(** The script of a schema with the event [touch_start]: the activation
    block stands once, between the plain blocks of the other events. *)
Lemma script_with_activation_block (data : Schema) :
  NoDup (keys (events data)) ->
  dict_mem (events data) touch_start = true ->
  exists evs1 event_data evs2,
    events data = (evs1 ++ (touch_start, event_data) :: evs2)%list
    /\ script_lines data
       = (preamble ++ flat_map plain_block evs1
            ++ activation_block data event_data
            ++ flat_map plain_block evs2 ++ ["}"])%list.
Proof.
  intros Hnd Hmem.
  destruct (single_activation_event _ Hnd Hmem) as [evs1 [ed [evs2 [Hevs Hall]]]].
  exists evs1, ed, evs2. split; [exact Hevs|].
  apply Forall_app in Hall as [H1 H2].
  unfold script_lines. rewrite Hevs, flat_map_app. cbn [flat_map].
  rewrite (plain_blocks data evs1 H1), (plain_blocks data evs2 H2).
  unfold event_block, event_body, activation_block, activation_body.
  cbn [fst snd]. replace (key_eqb touch_start touch_start) with true by reflexivity.
  repeat rewrite <- app_assoc. reflexivity.
Qed.

(** ** C4: the two built-in constants *)




(** ** C5: the constants *)

(** C5, counterexample.  The schema holds the constant [TRUE] and the
    event [state_entry] only: no body is filled and [TRUE] is not in the
    script. *)
Lemma constant_absent_without_touch_start :
  exists out,
    generate_lsl_script no_activation_schema = Ret out /\ ~ occurs "TRUE" out.
Proof.
  eexists. split.
  - vm_compute. reflexivity.
  - apply occursb_absent. vm_compute. reflexivity.
Qed.

(** The variable of a constant, type by type. *)
Lemma const_var_table (t : pyval) :
  const_var t
  = if is_str t "float" then "f"
    else if is_str t "string" then "s"
    else if is_str t "key" then "k"
    else if is_str t "vector" then "v"
    else if is_str t "rotation" then "r"
    else "i".
Proof.
  unfold const_var.
  destruct t as [|s| | | |]; cbn [is_str]; try reflexivity.
  destruct (String.eqb_spec s "integer") as [->|]; reflexivity.
Qed.

(** C5, amended.  For every schema on which the generator returns and
    whose events hold [touch_start] (once, as the keys of a dict are
    distinct), the script has one activation block, between the plain
    blocks of the other events, and the body of that block begins with
    exactly one line per constant, in insertion order, followed by the two
    built-in assignments; no other block holds an assignment.  The line of
    a constant assigns its name to the variable of its type: [i] when the
    type is missing, [f], [s], [k], [v], [r] for float, string, key,
    vector and rotation, and [i] for any other type.  The constant [TRUE]
    of type integer gives [i=TRUE;]. *)
Theorem constants_assigned_in_activation_body (data : Schema) :
  schema_ok data = true ->
  NoDup (keys (events data)) ->
  dict_mem (events data) touch_start = true ->
  (exists evs1 event_data evs2,
      events data = (evs1 ++ (touch_start, event_data) :: evs2)%list
      /\ generate_lsl_script data
         = Ret (join newline
                  (preamble
                     ++ flat_map plain_block evs1
                     ++ [event_header touch_start (event_parameters_of event_data);
                         "    {"]
                     ++ map const_line (constants data)
                     ++ builtin_lines
                     ++ map func_line (functions data)
                     ++ ["    }"; ""]
                     ++ flat_map plain_block evs2
                     ++ ["}"])%list))
  /\ (forall name const_data,
         let t := get_default const_data (Some "type") (VStr "integer") in
         const_line (name, const_data)
         = "        "
             ++ (if is_str t "float" then "f"
                 else if is_str t "string" then "s"
                 else if is_str t "key" then "k"
                 else if is_str t "vector" then "v"
                 else if is_str t "rotation" then "r"
                 else "i")
             ++ "=" ++ key_str name ++ ";")
  /\ const_line TRUE_entry = "        i=TRUE;".
Proof.
  intros Hok Hnd Hmem. split; [|split].
  - destruct (script_with_activation_block data Hnd Hmem)
      as [evs1 [ed [evs2 [Hevs Hlines]]]].
    exists evs1, ed, evs2. split; [exact Hevs|].
    rewrite (generate_returns_script data Hok), Hlines.
    unfold activation_block. repeat rewrite <- app_assoc. reflexivity.
  - intros name const_data t. unfold const_line. cbn [fst snd]. fold t.
    now rewrite const_var_table.
  - reflexivity.
Qed.

Lemma sample_events_distinct : NoDup (keys (events sample_schema)).
Proof.
  unfold keys. simpl. repeat constructor; simpl; intuition discriminate.
Defined.

Lemma constants_assigned_in_activation_body_witness :
  schema_ok sample_schema = true
  /\ NoDup (keys (events sample_schema))
  /\ dict_mem (events sample_schema) touch_start = true
  /\ (exists evs1 event_data evs2,
         events sample_schema = (evs1 ++ (touch_start, event_data) :: evs2)%list
         /\ generate_lsl_script sample_schema
            = Ret (join newline
                     (preamble
                        ++ flat_map plain_block evs1
                        ++ [event_header touch_start (event_parameters_of event_data);
                            "    {"]
                        ++ map const_line (constants sample_schema)
                        ++ builtin_lines
                        ++ map func_line (functions sample_schema)
                        ++ ["    }"; ""]
                        ++ flat_map plain_block evs2
                        ++ ["}"])%list)).
Proof.
  split; [reflexivity|]. split; [exact sample_events_distinct|].
  split; [reflexivity|].
  exact (proj1 (constants_assigned_in_activation_body sample_schema
                  eq_refl sample_events_distinct eq_refl)).
Defined.

(** ** C6: the functions *)

(** C6, counterexample.  The schema holds the function [llSay] and the
    event [state_entry] only: [llSay] is not called in the script. *)
Lemma function_absent_without_touch_start :
  exists out,
    generate_lsl_script no_activation_schema = Ret out /\ ~ occurs "llSay" out.
Proof.
  eexists. split.
  - vm_compute. reflexivity.
  - apply occursb_absent. vm_compute. reflexivity.
Qed.

(** C6, amended.  For every schema on which the generator returns and
    whose events hold [touch_start] (once, as the keys of a dict are
    distinct), the script has one activation block, and the body of that
    block ends, after the built-in assignments, with exactly one line per
    function, in insertion order; no other block holds a call.  The line
    holds the call [name(arg, ...)] with one variable per argument,
    chosen by the type of the argument ([i] for a missing or unrecognized
    type); it is the call alone when [return] is [void], otherwise the
    assignment of the call to the variable of the return type ([i] for a
    missing or unrecognized type).  The function [llSay] gives
    [llSay(i, s);]. *)
Theorem functions_called_in_activation_body (data : Schema) :
  schema_ok data = true ->
  NoDup (keys (events data)) ->
  dict_mem (events data) touch_start = true ->
  (exists evs1 event_data evs2 header,
      events data = (evs1 ++ (touch_start, event_data) :: evs2)%list
      /\ generate_lsl_script data
         = Ret (join newline
                  (preamble
                     ++ flat_map plain_block evs1
                     ++ header
                     ++ builtin_lines
                     ++ map func_line (functions data)
                     ++ ["    }"; ""]
                     ++ flat_map plain_block evs2
                     ++ ["}"])%list)
      /\ header
         = ([event_header touch_start (event_parameters_of event_data); "    {"]
              ++ map const_line (constants data))%list)
  /\ (forall name func_data,
         let return_type := get_default func_data (Some "return") (VStr "integer") in
         let call := key_str name ++ "(" ++ join ", " (func_args func_data) ++ ")" in
         func_line (name, func_data) = call_statement return_type call
         /\ (is_str return_type "void" = true ->
             func_line (name, func_data) = "        " ++ call ++ ";")
         /\ (is_str return_type "void" = false ->
             func_line (name, func_data)
             = "        " ++ ret_var return_type ++ "=" ++ call ++ ";"))
  /\ (forall func_data arguments,
         dict_get func_data (Some "arguments") = Some arguments ->
         py_truthy arguments = true ->
         func_args func_data
         = map (fun kv => arg_var (get_default (entries (snd kv)) (Some "type")
                                     (VStr "integer")))
               (arg_entries arguments))
  /\ func_args (snd llSay_entry) = ["i"; "s"]
  /\ func_line llSay_entry = "        llSay(i, s);".
Proof.
  intros Hok Hnd Hmem. split; [|split; [|split; [|split]]].
  - destruct (script_with_activation_block data Hnd Hmem)
      as [evs1 [ed [evs2 [Hevs Hlines]]]].
    exists evs1, ed, evs2. eexists. split; [exact Hevs|]. split; [|reflexivity].
    rewrite (generate_returns_script data Hok), Hlines.
    unfold activation_block. repeat rewrite <- app_assoc. reflexivity.
  - intros name func_data return_type call.
    unfold func_line, func_call. cbn [fst snd]. fold return_type. fold call.
    rewrite call_statement_ret_var.
    destruct (is_str return_type "void"); repeat split; congruence.
  - intros func_data arguments Hget Htrue. unfold func_args.
    now rewrite Hget, Htrue.
  - reflexivity.
  - reflexivity.
Qed.

Lemma functions_called_in_activation_body_witness :
  schema_ok sample_schema = true
  /\ NoDup (keys (events sample_schema))
  /\ dict_mem (events sample_schema) touch_start = true
  /\ (exists evs1 event_data evs2 header,
         events sample_schema = (evs1 ++ (touch_start, event_data) :: evs2)%list
         /\ generate_lsl_script sample_schema
            = Ret (join newline
                     (preamble
                        ++ flat_map plain_block evs1
                        ++ header
                        ++ builtin_lines
                        ++ map func_line (functions sample_schema)
                        ++ ["    }"; ""]
                        ++ flat_map plain_block evs2
                        ++ ["}"])%list)
         /\ header
            = ([event_header touch_start (event_parameters_of event_data); "    {"]
                 ++ map const_line (constants sample_schema))%list).
Proof.
  split; [reflexivity|]. split; [exact sample_events_distinct|].
  split; [reflexivity|].
  exact (proj1 (functions_called_in_activation_body sample_schema
                  eq_refl sample_events_distinct eq_refl)).
Defined.

(** ** C7: the events *)



(** ** C8: the children of a mapping element go by pairs *)

(** C8.  Each of the three loops of the parser (over an item, over a
    section, over the top-level map) handles the children of its element
    two by two: the pair at position [j] is the child [2j], read as the
    key, and the child [2j+1], read as the value.  A last child without a
    partner is not looked at: the result, and whether an error is raised,
    do not depend on it. *)
Theorem mapping_children_paired :
  (forall item_map,
      parse_item item_map
      = for_each (pairs (children item_map)) [] item_step)
  /\ (forall section_map,
         parse_section section_map
         = for_each (pairs (children section_map)) [] section_step)
  /\ (forall root main_map,
         find root "map" = Some main_map ->
         parse_llsd_xml (Ret root)
         = for_each (pairs (children main_map)) empty_schema schema_step)
  /\ (forall (l : list Element) j key_elem value_elem,
         nth_error (pairs l) j = Some (key_elem, value_elem)
         <-> nth_error l (2 * j) = Some key_elem
             /\ nth_error l (2 * j + 1) = Some value_elem)
  /\ (forall tg txt (l : list Element) last,
         Nat.even (List.length l) = true ->
         pairs (l ++ [last]) = pairs l
         /\ parse_value (mkElement "map" txt (l ++ [last]))
            = parse_value (mkElement "map" txt l)
         /\ parse_item (mkElement tg txt (l ++ [last]))
            = parse_item (mkElement tg txt l)
         /\ parse_section (mkElement tg txt (l ++ [last]))
            = parse_section (mkElement tg txt l)).
Proof.
  split; [|split; [|split; [|split]]].
  - exact parse_item_pairs.
  - exact parse_section_pairs.
  - exact parse_llsd_xml_pairs.
  - intros l j k v. apply pairs_nth_error.
  - intros tg txt l last Heven.
    assert (Hitem : forall t, parse_item (mkElement t txt (l ++ [last]))
                              = parse_item (mkElement t txt l)).
    { intros t. rewrite !parse_item_pairs. cbn [children].
      now rewrite pairs_drop_last. }
    split; [now apply pairs_drop_last|]. split; [|split].
    + change (parse_value (mkElement "map" txt (l ++ [last])))
        with (d <- parse_item (mkElement "map" txt (l ++ [last])) ;; Ret (VDict d)).
      now rewrite Hitem.
    + apply Hitem.
    + rewrite !parse_section_pairs. cbn [children].
      now rewrite pairs_drop_last.
Qed.

(** The document with an unpaired child at each level is parsed, the
    unpaired children left aside. *)
Lemma odd_document_parsed :
  parse_llsd_xml (Ret odd_document) = Ret (mkSchema [TRUE_entry] [] []).
Proof. vm_compute. reflexivity. Qed.

(** ** C9: determinism *)



(** ** C10: the quaternion variable *)



(** * Further properties of the code *)

(** ** Pairs and loops *)

Lemma pairs_app_even {A : Type} (l1 l2 : list A) :
  Nat.even (List.length l1) = true ->
  pairs (l1 ++ l2) = (pairs l1 ++ pairs l2)%list.
Proof.
  induction l1 as [|a|a b r IH] using list_ind2; intros H.
  - reflexivity.
  - discriminate.
  - cbn [app pairs]. rewrite IH by exact H. reflexivity.
Qed.

Lemma for_each_app {A St : Type} (xs ys : list A) (st : St)
      (body : A -> St -> result St) :
  for_each (xs ++ ys) st body
  = (st' <- for_each xs st body ;; for_each ys st' body).
Proof.
  revert st. induction xs as [|x xs IH]; intros st; cbn [app for_each bind].
  - reflexivity.
  - destruct (body x st) as [st1|e]; cbn [bind]; [apply IH | reflexivity].
Qed.

Lemma for_each_skip {A St : Type} (xs ys : list A) (x : A) (st : St)
      (body : A -> St -> result St) :
  (forall st', body x st' = Ret st') ->
  for_each (xs ++ x :: ys) st body = for_each (xs ++ ys) st body.
Proof.
  intros Hskip. rewrite !for_each_app.
  destruct (for_each xs st body) as [st1|e]; cbn [bind for_each]; [|reflexivity].
  now rewrite Hskip.
Qed.

Lemma key_eqb_sym (a b : pykey) : key_eqb a b = key_eqb b a.
Proof.
  destruct a as [x|], b as [y|]; cbn [key_eqb]; try reflexivity.
  apply String.eqb_sym.
Qed.

Lemma item_step_taking (kv : Element * Element) (st : pydict pyval) :
  item_step kv st = taking_step item_takes parse_value kv st.
Proof. destruct kv as [k v]. reflexivity. Qed.

Lemma section_step_taking (kv : Element * Element) (st : pydict (pydict pyval)) :
  section_step kv st = taking_step section_takes parse_item kv st.
Proof. destruct kv as [k v]. reflexivity. Qed.

Lemma parse_item_taking (item_map : Element) :
  parse_item item_map
  = for_each (pairs (children item_map)) []
             (taking_step item_takes parse_value).
Proof.
  rewrite parse_item_pairs. apply for_each_ext. apply item_step_taking.
Qed.

Lemma parse_section_taking (section_map : Element) :
  parse_section section_map
  = for_each (pairs (children section_map)) []
             (taking_step section_takes parse_item).
Proof.
  rewrite parse_section_pairs. apply for_each_ext. apply section_step_taking.
Qed.

Lemma pairs_remove_pair {A : Type} (l1 l2 : list A) (k v : A) :
  Nat.even (List.length l1) = true ->
  pairs (l1 ++ k :: v :: l2) = (pairs l1 ++ (k, v) :: pairs l2)%list
  /\ pairs (l1 ++ l2) = (pairs l1 ++ pairs l2)%list.
Proof.
  intros H. split; now rewrite pairs_app_even.
Qed.

(** ** X1: pairs that a loop does not take *)

(** X1.  A pair of children that a loop of the parser does not take is
    skipped without being looked into: with the pair or without it the
    outcome is the same, errors included.  An item takes the pairs whose
    first element is tagged [key]; a section moreover wants the second
    tagged [map]; the top-level map moreover wants the text of the key to
    be [constants], [events] or [functions]. *)
Theorem untaken_pair_skipped (tg : string) (txt : option string)
        (l1 l2 : list Element) (k v : Element) :
  Nat.even (List.length l1) = true ->
  (item_takes (k, v) = false ->
   parse_item (mkElement tg txt (l1 ++ k :: v :: l2))
   = parse_item (mkElement tg txt (l1 ++ l2)))
  /\ (section_takes (k, v) = false ->
      parse_section (mkElement tg txt (l1 ++ k :: v :: l2))
      = parse_section (mkElement tg txt (l1 ++ l2)))
  /\ (schema_takes (k, v) = false ->
      forall root root',
        find root "map" = Some (mkElement tg txt (l1 ++ k :: v :: l2)) ->
        find root' "map" = Some (mkElement tg txt (l1 ++ l2)) ->
        parse_llsd_xml (Ret root) = parse_llsd_xml (Ret root')).
Proof.
  intros Heven.
  destruct (pairs_remove_pair l1 l2 k v Heven) as [Hwith Hwithout].
  split; [|split].
  - intros Htakes. rewrite !parse_item_taking. cbn [children].
    rewrite Hwith, Hwithout. apply for_each_skip.
    intros st. unfold taking_step. now rewrite Htakes.
  - intros Htakes. rewrite !parse_section_taking. cbn [children].
    rewrite Hwith, Hwithout. apply for_each_skip.
    intros st. unfold taking_step. now rewrite Htakes.
  - intros Htakes root root' Hroot Hroot'.
    rewrite (parse_llsd_xml_pairs _ _ Hroot), (parse_llsd_xml_pairs _ _ Hroot').
    cbn [children]. rewrite Hwith, Hwithout. apply for_each_skip.
    intros st. unfold schema_step, schema_takes in *. cbn [fst snd] in Htakes.
    destruct (String.eqb (tag k) "key" && String.eqb (tag v) "map");
      [|reflexivity].
    cbn [andb] in Htakes. now rewrite Htakes.
Qed.

Lemma untaken_pair_skipped_witness :
  Nat.even (List.length [key_element "a"; string_element "x"]) = true
  /\ parse_item
       (map_element ([key_element "a"; string_element "x"]
                       ++ mkElement "note" None []
                       :: mkElement "integer" (Some "abc") []
                       :: [key_element "b"; string_element "y"]))
     = parse_item
         (map_element ([key_element "a"; string_element "x"]
                         ++ [key_element "b"; string_element "y"])).
Proof.
  split; [reflexivity|].
  apply (untaken_pair_skipped "map" None
           [key_element "a"; string_element "x"]
           [key_element "b"; string_element "y"]
           (mkElement "note" None []) (mkElement "integer" (Some "abc") []));
    reflexivity.
Defined.

(** ** X2, X3: a key that comes twice *)

Section TakenPairs.
Context {V : Type}.
Variable takes : Element * Element -> bool.
Variable valof : Element -> result V.

Lemma taking_lookup (k : pykey) (ps : list (Element * Element)) :
  forall (st d : pydict V) (found : option Element),
    for_each ps st (taking_step takes valof) = Ret d ->
    option_map valof found = option_map Ret (dict_get st k) ->
    option_map valof (last_taken takes k ps found) = option_map Ret (dict_get d k).
Proof.
  induction ps as [|[ke ve] ps IH]; intros st d found Hrun Hfound;
    cbn [for_each last_taken] in *.
  - injection Hrun as <-. exact Hfound.
  - unfold taking_step at 1 in Hrun. cbn [fst snd] in *.
    destruct (takes (ke, ve)); cbn [andb].
    + destruct (valof ve) as [v|e] eqn:Hv; cbn [bind] in Hrun; [|discriminate].
      apply (IH _ _ _ Hrun).
      destruct (key_eqb k (text ke)) eqn:Hk.
      * apply key_eqb_eq in Hk. subst k.
        rewrite dict_get_set_same. cbn [option_map]. now rewrite Hv.
      * now rewrite dict_get_set_other.
    + cbn [bind] in Hrun. apply (IH _ _ _ Hrun). exact Hfound.
Qed.

Lemma taking_NoDup (ps : list (Element * Element)) :
  forall (st d : pydict V),
    NoDup (keys st) ->
    for_each ps st (taking_step takes valof) = Ret d ->
    NoDup (keys d).
Proof.
  apply (for_each_invariant (fun st => NoDup (keys st))).
  intros kv st st' Hst. unfold taking_step.
  destruct (takes kv); [|intros H; injection H as <-; exact Hst].
  destruct (valof (snd kv)); cbn [bind]; [|discriminate].
  intros H. injection H as <-. now apply dict_set_NoDup.
Qed.
End TakenPairs.

(** X2.  In the dict that [parse_item] returns, a key holds the value
    parsed from the last pair that bears this key (pairs whose first
    element is not tagged [key] do not count), and a key that no pair
    bears is absent. *)
Theorem parsed_item_lookup (item_map : Element) (d : pydict pyval) (k : pykey) :
  parse_item item_map = Ret d ->
  option_map parse_value
             (last_taken item_takes k (pairs (children item_map)) None)
  = option_map Ret (dict_get d k).
Proof.
  rewrite parse_item_taking. intros Hrun.
  apply (taking_lookup item_takes parse_value k _ [] d None Hrun).
  reflexivity.
Qed.

Lemma parsed_item_lookup_witness :
  parse_item (map_element [key_element "type"; string_element "integer";
                           key_element "value"; string_element "1";
                           key_element "type"; string_element "float"])
  = Ret [(Some "type", VStr "float"); (Some "value", VStr "1")]
  /\ option_map parse_value
       (last_taken item_takes (Some "type")
          (pairs (children
                    (map_element [key_element "type"; string_element "integer";
                                  key_element "value"; string_element "1";
                                  key_element "type"; string_element "float"])))
          None)
     = option_map Ret
         (dict_get [(Some "type", VStr "float"); (Some "value", VStr "1")]
                   (Some "type")).
Proof.
  split; [reflexivity|].
  apply (parsed_item_lookup
           (map_element [key_element "type"; string_element "integer";
                         key_element "value"; string_element "1";
                         key_element "type"; string_element "float"])).
  reflexivity.
Defined.

Lemma parsed_section_lookup_items (section_map : Element)
      (d : pydict (pydict pyval)) (name : pykey) :
  parse_section section_map = Ret d ->
  option_map parse_item
             (last_taken section_takes name (pairs (children section_map)) None)
  = option_map Ret (dict_get d name).
Proof.
  rewrite parse_section_taking. intros Hrun.
  apply (taking_lookup section_takes parse_item name _ [] d None Hrun).
  reflexivity.
Qed.

(** X3.  In the section that [parse_section] returns, a symbol holds the
    item parsed from the last pair that bears its name (pairs that are
    not a [key] element followed by a [map] element do not count), and a
    name that no such pair bears is absent. *)
Theorem parsed_section_lookup (section_map : Element)
        (d : pydict (pydict pyval)) (name : pykey) :
  parse_section section_map = Ret d ->
  option_map parse_item
             (last_taken section_takes name (pairs (children section_map)) None)
  = option_map Ret (dict_get d name).
Proof.
  intros Hrun.
  now apply parsed_section_lookup_items.
Qed.

Lemma parsed_section_lookup_witness :
  parse_section
    (map_element [key_element "PI"; map_element [key_element "value"; string_element "3"];
                  key_element "PI"; string_element "not a map";
                  key_element "PI"; map_element [key_element "type"; string_element "float"]])
  = Ret [(Some "PI", [(Some "type", VStr "float")])]
  /\ option_map parse_item
       (last_taken section_takes (Some "PI")
          (pairs (children
             (map_element
                [key_element "PI"; map_element [key_element "value"; string_element "3"];
                 key_element "PI"; string_element "not a map";
                 key_element "PI"; map_element [key_element "type"; string_element "float"]])))
          None)
     = option_map Ret (dict_get [(Some "PI", [(Some "type", VStr "float")])] (Some "PI")).
Proof.
  split; [reflexivity|].
  apply (parsed_section_lookup
           (map_element
              [key_element "PI"; map_element [key_element "value"; string_element "3"];
               key_element "PI"; string_element "not a map";
               key_element "PI"; map_element [key_element "type"; string_element "float"]])).
  reflexivity.
Defined.

(** ** X4: the sections of the schema *)

Lemma schema_get_set_same (data : Schema) (name : pykey)
      (v : pydict (pydict pyval)) :
  schema_has name = true -> schema_get (schema_set data name v) name = v.
Proof.
  unfold schema_has, schema_get, schema_set.
  destruct (key_eqb name (Some "constants")) eqn:Hc; [reflexivity|].
  destruct (key_eqb name (Some "events")) eqn:He; [reflexivity|].
  destruct (key_eqb name (Some "functions")) eqn:Hf; [reflexivity|].
  discriminate.
Qed.

Lemma schema_get_set_other (data : Schema) (name other : pykey)
      (v : pydict (pydict pyval)) :
  key_eqb name other = false ->
  schema_get (schema_set data other v) name = schema_get data name.
Proof.
  intros Hne. unfold schema_get, schema_set.
  destruct (key_eqb other (Some "constants")) eqn:Hc.
  { apply key_eqb_eq in Hc. subst other. now rewrite Hne. }
  destruct (key_eqb other (Some "events")) eqn:He.
  { apply key_eqb_eq in He. subst other. rewrite Hne.
    now destruct (key_eqb name (Some "constants")). }
  destruct (key_eqb other (Some "functions")) eqn:Hf; [|reflexivity].
  apply key_eqb_eq in Hf. subst other. rewrite Hne.
  destruct (key_eqb name (Some "constants")); [reflexivity|].
  now destruct (key_eqb name (Some "events")).
Qed.

Lemma schema_loop_section (name : pykey) (ps : list (Element * Element)) :
  forall (st data : Schema) (found : option Element),
    for_each ps st schema_step = Ret data ->
    match found with
    | Some section_map => parse_section section_map = Ret (schema_get st name)
    | None => schema_get st name = []
    end ->
    match last_taken schema_takes name ps found with
    | Some section_map => parse_section section_map = Ret (schema_get data name)
    | None => schema_get data name = []
    end.
Proof.
  induction ps as [|[ke ve] ps IH]; intros st data found Hrun Hfound;
    cbn [for_each last_taken] in *.
  - injection Hrun as <-. exact Hfound.
  - unfold schema_step at 1 in Hrun.
    change (schema_takes (ke, ve))
      with (String.eqb (tag ke) "key" && String.eqb (tag ve) "map"
            && schema_has (text ke)).
    cbn [fst snd].
    destruct (String.eqb (tag ke) "key" && String.eqb (tag ve) "map");
      cbn [andb bind] in *; [|now apply (IH _ _ _ Hrun)].
    destruct (schema_has (text ke)) eqn:Hhas; cbn [andb bind] in *;
      [|now apply (IH _ _ _ Hrun)].
    destruct (parse_section ve) as [sec|e] eqn:Hsec; cbn [bind] in Hrun;
      [|discriminate].
    apply (IH _ _ _ Hrun).
    destruct (key_eqb name (text ke)) eqn:Hk.
    + apply key_eqb_eq in Hk. subst name.
      now rewrite schema_get_set_same.
    + now rewrite schema_get_set_other.
Qed.

(** X4.  The section of the schema that [parse_llsd_xml] returns under
    [constants], [events] or [functions] is the one parsed from the last
    pair of the top-level map that bears this name (a [key] element
    followed by a [map] element); a section that no such pair bears is
    empty. *)
Theorem parsed_schema_section (root main_map : Element) (data : Schema)
        (name : pykey) :
  find root "map" = Some main_map ->
  parse_llsd_xml (Ret root) = Ret data ->
  match last_taken schema_takes name (pairs (children main_map)) None with
  | Some section_map => parse_section section_map = Ret (schema_get data name)
  | None => schema_get data name = []
  end.
Proof.
  intros Hfind Hrun. rewrite (parse_llsd_xml_pairs _ _ Hfind) in Hrun.
  apply (schema_loop_section name _ empty_schema data None Hrun).
  unfold schema_get, empty_schema. cbn [constants events functions].
  destruct (key_eqb name (Some "constants")); [reflexivity|].
  destruct (key_eqb name (Some "events")); [reflexivity|].
  now destruct (key_eqb name (Some "functions")).
Qed.

Lemma keywords_document_parsed :
  parse_llsd_xml (Ret keywords_document) = Ret keywords_schema.
Proof. vm_compute. reflexivity. Defined.

Lemma parsed_schema_section_witness :
  find keywords_document "map" = Some keywords_main_map
  /\ parse_llsd_xml (Ret keywords_document) = Ret keywords_schema
  /\ match last_taken schema_takes (Some "events")
                      (pairs (children keywords_main_map)) None with
     | Some section_map =>
         parse_section section_map = Ret (schema_get keywords_schema (Some "events"))
     | None => schema_get keywords_schema (Some "events") = []
     end.
Proof.
  split; [reflexivity|]. split; [exact keywords_document_parsed|].
  apply (parsed_schema_section keywords_document keywords_main_map
           keywords_schema (Some "events"));
    [reflexivity | exact keywords_document_parsed].
Defined.

(** ** X5: the keys of the parsed dicts *)

Lemma parse_item_NoDup (item_map : Element) (d : pydict pyval) :
  parse_item item_map = Ret d -> NoDup (keys d).
Proof.
  rewrite parse_item_taking.
  apply (taking_NoDup item_takes parse_value). constructor.
Qed.

Lemma parse_value_dict (value_elem : Element) (d : pydict pyval) :
  parse_value value_elem = Ret (VDict d) ->
  parse_item value_elem = Ret d.
Proof.
  destruct value_elem as [tg txt chs]. unfold parse_item. cbn [parse_value children].
  destruct (String.eqb tg "string"); [discriminate|].
  destruct (String.eqb tg "integer").
  { destruct (text_truthy txt); [|discriminate].
    destruct (py_int (text_or_empty txt)); discriminate. }
  destruct (String.eqb tg "real").
  { destruct (text_truthy txt); [|discriminate].
    destruct (py_float (text_or_empty txt)); discriminate. }
  destruct (String.eqb tg "array").
  { destruct (sequence (map parse_value chs)); cbn [bind]; discriminate. }
  destruct (String.eqb tg "map").
  { destruct (parse_item_loop (mkElement tg txt chs) (map parse_value chs));
      cbn [bind]; [|discriminate].
    intros H. now injection H as ->. }
  destruct txt; discriminate.
Qed.

(** X5.  No dict that the parser builds holds a key twice: the dict of an
    item, the dict that [parse_value] returns for a [map] element, a
    section with each of its items, and the three sections of the
    schema. *)
Theorem parsed_keys_distinct :
  (forall item_map d, parse_item item_map = Ret d -> NoDup (keys d))
  /\ (forall value_elem d,
         parse_value value_elem = Ret (VDict d) -> NoDup (keys d))
  /\ (forall section_map d,
         parse_section section_map = Ret d ->
         NoDup (keys d)
         /\ forall name item, dict_get d name = Some item -> NoDup (keys item))
  /\ (forall root data,
         parse_llsd_xml (Ret root) = Ret data -> keys_distinct data).
Proof.
  split; [|split; [|split]].
  - exact parse_item_NoDup.
  - intros value_elem d H. apply parse_value_dict in H.
    now apply parse_item_NoDup in H.
  - intros section_map d H. split; [now apply parse_section_NoDup in H|].
    intros name item Hget.
    pose proof (parsed_section_lookup_items section_map d name H) as Hlook.
    rewrite Hget in Hlook. cbn [option_map] in Hlook.
    destruct (last_taken section_takes name (pairs (children section_map)) None)
      as [e|]; cbn [option_map] in Hlook; [|discriminate].
    injection Hlook as Hlook. now apply parse_item_NoDup in Hlook.
  - exact parse_llsd_xml_keys_distinct.
Qed.

(** ** X6: arrays *)

Lemma sequence_Forall2 {A B : Type} (f : A -> result B) (xs : list A) :
  forall l,
    sequence (map f xs) = Ret l <-> Forall2 (fun x y => f x = Ret y) xs l.
Proof.
  induction xs as [|x xs IH]; intros l; cbn [map sequence].
  - split.
    + intros H. injection H as <-. constructor.
    + intros H. inversion H. reflexivity.
  - split.
    + destruct (f x) as [y|e] eqn:Hx; cbn [bind]; [|discriminate].
      destruct (sequence (map f xs)) as [r|e] eqn:Hr; cbn [bind]; [|discriminate].
      intros H. injection H as <-. constructor; [exact Hx|]. now apply IH.
    + intros H. inversion H as [|x' y xs' r Hx Hr]; subst.
      rewrite Hx. cbn [bind]. apply IH in Hr. rewrite Hr. reflexivity.
Qed.

Lemma sequence_first_error {A B : Type} (f : A -> result B)
      (xs ys : list A) (x : A) (l : list B) (e : exn) :
  Forall2 (fun a b => f a = Ret b) xs l ->
  f x = Raise e ->
  sequence (map f (xs ++ x :: ys)) = Raise e.
Proof.
  intros Hxs Hx. induction Hxs as [|a b xs l Ha _ IH]; cbn [app map sequence].
  - now rewrite Hx.
  - rewrite Ha. cbn [bind]. now rewrite IH.
Qed.

Lemma parse_value_array (txt : option string) (chs : list Element) :
  parse_value (mkElement "array" txt chs)
  = (l <- sequence (map parse_value chs) ;; Ret (VList l)).
Proof. reflexivity. Qed.

(** X6.  An [array] element gives the list of the values of its children,
    one per child and in the order of the document; it returns exactly
    when every child does, and otherwise raises the error of the first
    child that raises. *)
Theorem array_parsed_elementwise (txt : option string) (chs : list Element) :
  (forall v,
      parse_value (mkElement "array" txt chs) = Ret v
      <-> exists l, v = VList l
                    /\ Forall2 (fun c x => parse_value c = Ret x) chs l)
  /\ (forall before c after l e,
         chs = (before ++ c :: after)%list ->
         Forall2 (fun c x => parse_value c = Ret x) before l ->
         parse_value c = Raise e ->
         parse_value (mkElement "array" txt chs) = Raise e).
Proof.
  rewrite parse_value_array. split.
  - intros v. split.
    + destruct (sequence (map parse_value chs)) as [l|e] eqn:Hseq; cbn [bind];
        [|discriminate].
      intros H. injection H as <-. exists l. split; [reflexivity|].
      now apply sequence_Forall2.
    + intros [l [-> Hall]]. apply sequence_Forall2 in Hall.
      now rewrite Hall.
  - intros before c after l e -> Hbefore Hc.
    now rewrite (sequence_first_error parse_value before after c l e Hbefore Hc).
Qed.

(** ** X7: the outcome of [get_event_parameters] *)

Section ForEachFixedError.
Context {A B : Type}.
Variable ok : A -> bool.
Variable h : A -> list B.
Variable body : A -> list B -> result (list B).
Variable e0 : exn.

Hypothesis body_returns :
  forall x acc, ok x = true -> body x acc = Ret (acc ++ h x)%list.
Hypothesis body_raises :
  forall x acc, ok x = false -> body x acc = Raise e0.

Lemma for_each_raises_fixed :
  forall xs acc, forallb ok xs = false -> for_each xs acc body = Raise e0.
Proof.
  induction xs as [|x xs IH]; intros acc Hok; cbn [forallb for_each] in *.
  - discriminate.
  - destruct (ok x) eqn:Hx.
    + rewrite (body_returns x acc Hx). cbn [bind]. apply IH. exact Hok.
    + now rewrite (body_raises x acc Hx).
Qed.
End ForEachFixedError.

Lemma entry_loop_AttributeError {B : Type} (g : pykey * pyval -> B)
      (items : pydict pyval) (acc : list B) :
  forallb (fun kv => is_dict (snd kv)) items = false ->
  entry_loop g items acc = Raise AttributeError.
Proof.
  intros H. unfold entry_loop.
  apply (for_each_raises_fixed (fun kv => is_dict (snd kv))
           (fun kv => [g (param_of kv)])).
  - intros [name arg_data] acc' Hd. cbn [snd] in Hd.
    rewrite (py_get_dict _ _ _ Hd). reflexivity.
  - intros [name arg_data] acc' Hd. cbn [snd] in Hd.
    now rewrite (py_get_not_dict _ _ _ Hd).
  - exact H.
Qed.

Lemma arg_loop_AttributeError {B : Type} (g : pykey * pyval -> B)
      (arg_maps : list pyval) (acc : list B) :
  forallb arg_map_ok arg_maps = false ->
  arg_loop g arg_maps acc = Raise AttributeError.
Proof.
  intros H. unfold arg_loop.
  apply (for_each_raises_fixed arg_map_ok
           (fun m => map (fun kv => g (param_of kv)) (entries m))).
  - intros; now apply arg_loop_step_returns.
  - intros m acc' Hm. unfold arg_map_ok in Hm.
    destruct (is_dict m) eqn:Hd.
    + rewrite (py_items_dict _ Hd). cbn [bind].
      now apply entry_loop_AttributeError.
    + now rewrite (py_items_not_dict _ Hd).
  - exact H.
Qed.

Lemma py_iter_not_iterable (v : pyval) :
  is_iterable v = false -> py_iter v = Raise TypeError.
Proof. destruct v; cbn; intros H; try discriminate; reflexivity. Qed.

Lemma py_iter_iterable (v : pyval) :
  is_iterable v = true -> exists l, py_iter v = Ret l.
Proof. destruct v; cbn; intros H; try discriminate; eexists; reflexivity. Qed.

(** X7.  [get_event_parameters] returns the empty list when the event has
    no [arguments].  When it has, the result is the name and the type
    ([integer] when missing) of every entry of every element, in order,
    provided that every element of [arguments] is a dict whose values are
    dicts; otherwise the call raises AttributeError, or TypeError when
    [arguments] cannot be iterated ([None], an integer, a float). *)
Theorem get_event_parameters_outcome (event_data : pydict pyval) :
  get_event_parameters event_data
  = match dict_get event_data (Some "arguments") with
    | None => Ret []
    | Some arguments =>
        if arguments_ok arguments
        then Ret (map (fun kv => (fst kv,
                                  get_default (entries (snd kv)) (Some "type")
                                              (VStr "integer")))
                      (arg_entries arguments))
        else if is_iterable arguments then Raise AttributeError
             else Raise TypeError
    end.
Proof.
  unfold get_event_parameters.
  destruct (dict_get event_data (Some "arguments")) as [a|]; [|reflexivity].
  destruct (arguments_ok a) eqn:Hok.
  - exact (iterate_arguments_returns (fun p => p) a [] Hok).
  - unfold arguments_ok in Hok.
    destruct (is_iterable a) eqn:Hit.
    + destruct (py_iter_iterable a Hit) as [l Hl]. rewrite Hl in *.
      cbn [bind].
      exact (arg_loop_AttributeError (fun p => p) l [] Hok).
    + now rewrite (py_iter_not_iterable a Hit).
Qed.

(** ** X8: the errors of the generator *)












(** ** X9: the attributes that the generator does not read *)

Lemma for_each_map_ext {A St : Type} (g : A -> A) (b1 b2 : A -> St -> result St)
      (xs : list A) :
  (forall x st, b1 (g x) st = b2 x st) ->
  forall st, for_each (map g xs) st b1 = for_each xs st b2.
Proof.
  intros Hext. induction xs as [|x xs IH]; intros st; cbn [map for_each].
  - reflexivity.
  - rewrite Hext. destruct (b2 x st); cbn [bind]; auto.
Qed.

Lemma unread_attribute_keys (k : pykey) :
  is_read_attribute k = false ->
  key_eqb (Some "type") k = false /\ key_eqb (Some "value") k = false
  /\ key_eqb (Some "return") k = false /\ key_eqb (Some "arguments") k = false.
Proof.
  unfold is_read_attribute. intros H.
  rewrite !(key_eqb_sym _ k).
  destruct (key_eqb k (Some "type")); [discriminate|].
  destruct (key_eqb k (Some "value")); [discriminate|].
  destruct (key_eqb k (Some "return")); [discriminate|].
  destruct (key_eqb k (Some "arguments")); [discriminate|].
  auto.
Qed.

Lemma get_event_parameters_set_other (event_data : pydict pyval)
      (k : pykey) (v : pyval) :
  key_eqb (Some "arguments") k = false ->
  get_event_parameters (dict_set event_data k v)
  = get_event_parameters event_data.
Proof.
  intros Hk. unfold get_event_parameters. now rewrite dict_get_set_other.
Qed.

(** X9.  The generator reads four attributes of a symbol: [type], [value],
    [return] and [arguments].  Any other attribute (a tooltip, say) can be
    added to the symbols, or changed, without any effect on the outcome. *)
Theorem unread_attributes_ignored (k : pykey) (fc fe ff : pykey -> pyval)
        (data : Schema) :
  is_read_attribute k = false ->
  generate_lsl_script
    (mkSchema (set_attribute k fc (constants data))
              (set_attribute k fe (events data))
              (set_attribute k ff (functions data)))
  = generate_lsl_script data.
Proof.
  intros Hk. destruct (unread_attribute_keys k Hk) as [Ht [Hv [Hr Ha]]].
  unfold generate_lsl_script, set_attribute.
  cbn [events functions constants].
  match goal with
  | |- bind (for_each (map ?g _) _ ?b1) _ = bind (for_each _ _ ?b2) _ =>
      rewrite (for_each_map_ext g b1 b2); [reflexivity|]
  end.
  intros [name ed] st. cbn [fst snd].
  rewrite (get_event_parameters_set_other _ _ _ Ha).
  destruct (get_event_parameters ed) as [ps|e]; cbn [bind]; [|reflexivity].
  destruct (key_eqb name touch_start); [|reflexivity].
  match goal with
  | |- context [for_each (map ?g (constants data)) _ ?cb] =>
      rewrite (for_each_map_ext g cb cb)
  end.
  2:{ intros [n cd] st'. cbn [fst snd]. unfold get_default.
      now rewrite !dict_get_set_other by assumption. }
  match goal with
  | |- context [for_each (constants data) ?acc ?cb] =>
      destruct (for_each (constants data) acc cb) as [lines|e]; cbn [bind];
        [|reflexivity]
  end.
  match goal with
  | |- context [for_each (map ?g (functions data)) _ ?fb] =>
      rewrite (for_each_map_ext g fb fb)
  end.
  - reflexivity.
  - intros [n fd] st'. cbn [fst snd]. unfold get_default, dict_mem.
    now rewrite !dict_get_set_other by assumption.
Qed.

Lemma unread_attributes_ignored_witness :
  is_read_attribute (Some "tooltip") = false
  /\ generate_lsl_script
       (mkSchema
          (set_attribute (Some "tooltip") (fun _ => VStr "text")
                         (constants sample_schema))
          (set_attribute (Some "tooltip") (fun _ => VInt 0)
                         (events sample_schema))
          (set_attribute (Some "tooltip") (fun name => key_value name)
                         (functions sample_schema)))
     = generate_lsl_script sample_schema.
Proof.
  split; [reflexivity|].
  apply (unread_attributes_ignored (Some "tooltip")). reflexivity.
Defined.

(** ** X10: without the activation event *)

Lemma for_each_ext_in {A St : Type} (xs : list A) (b1 b2 : A -> St -> result St) :
  (forall x, In x xs -> forall st, b1 x st = b2 x st) ->
  forall st, for_each xs st b1 = for_each xs st b2.
Proof.
  induction xs as [|x xs IH]; intros Hext st; cbn [for_each].
  - reflexivity.
  - rewrite (Hext x (or_introl eq_refl)).
    destruct (b2 x st); cbn [bind]; [|reflexivity].
    apply IH. intros y Hy. apply Hext. now right.
Qed.

Lemma dict_mem_false_keys {V : Type} (d : pydict V) (k : pykey) :
  dict_mem d k = false ->
  forall kv, In kv d -> key_eqb (fst kv) k = false.
Proof.
  unfold dict_mem. induction d as [|[k' v] r IH]; intros Hmem kv Hin.
  - contradiction.
  - cbn [dict_get] in Hmem. destruct (key_eqb k k') eqn:Hk; [discriminate|].
    destruct Hin as [<-|Hin].
    + cbn [fst]. now rewrite key_eqb_sym.
    + now apply IH.
Qed.

(** X10.  When no event is named [touch_start], the generator does not
    look at the constants and the functions: with any others in their
    place the outcome is the same, and in particular none of them can
    make it raise. *)
Theorem constants_and_functions_unread_without_touch_start
        (data : Schema) (cs fs : pydict (pydict pyval)) :
  dict_mem (events data) touch_start = false ->
  generate_lsl_script (mkSchema cs (events data) fs)
  = generate_lsl_script data.
Proof.
  intros Hmem. unfold generate_lsl_script. cbn [events].
  match goal with
  | |- bind (for_each _ _ ?b1) _ = bind (for_each _ _ ?b2) _ =>
      rewrite (for_each_ext_in _ b1 b2); [reflexivity|]
  end.
  intros [name ed] Hin st.
  pose proof (dict_mem_false_keys _ _ Hmem _ Hin) as Hname. cbn [fst] in Hname.
  destruct (get_event_parameters ed); cbn [bind]; [|reflexivity].
  now rewrite Hname.
Qed.

Lemma constants_and_functions_unread_without_touch_start_witness :
  dict_mem (events no_activation_schema) touch_start = false
  /\ generate_lsl_script
       (mkSchema (constants integer_value_schema)
                 (events no_activation_schema)
                 [(Some "f", [(Some "arguments", VInt 7)])])
     = generate_lsl_script no_activation_schema.
Proof.
  split; [reflexivity|].
  apply (constants_and_functions_unread_without_touch_start no_activation_schema).
  reflexivity.
Defined.

(** ** X11, X12: the entry point *)




(** *** What the parser makes of a document of the expected shape *)















(** ** X13: the schemas on which the generator returns *)


